(** * rasterio.transform: pixel <-> geographic coordinate conversion

    A shallow embedding of [rasterio/transform.py] and of the parts of the
    [affine] and [numpy] packages it calls, followed by the properties of
    the natural-language specification, each proved or refuted on the
    embedding.

    Numbers.  The Python code computes with IEEE-754 binary64 floats.  The
    embedding is written once, over a class [Number] of arithmetic
    operations, and is instantiated twice:
    - [binary64]: the operations of IEEE-754 double precision, round to
      nearest even, as specified by the standard library's [SpecFloat];
      this is the arithmetic the code really runs;
    - [exact]: rational arithmetic without rounding, used to say what
      holds of the same code when no rounding error occurs.

    Effects.  Exceptions are values of [result]; deprecation warnings and
    the acquisition of native transformer handles are recorded in an
    explicit [world] threaded through the state monad [M]. *)

From Stdlib Require Import ZArith QArith Qround Qfield List String Bool Lia.
From Stdlib Require Import Floats.SpecFloat.
Import ListNotations.

Set Implicit Arguments.

(* ================================================================= *)
(** * Python exceptions, results, warnings *)

Inductive exn : Type :=
| TransformError (msg : string)          (* rasterio.errors.TransformError *)
| ValueError (msg : string)
| TypeError (msg : string)
| IndexError
| KeyError
| OverflowError
| ZeroDivisionError
| TransformNotInvertibleError            (* affine.TransformNotInvertibleError *)
| ClosedTransformerError
| EngineError (msg : string).            (* any failure reported by GDAL *)

Inductive result (A : Type) : Type :=
| Ok (a : A)
| Raise (e : exn).
Arguments Ok {A} a.
Arguments Raise {A} e.

Definition bind {A B} (r : result A) (k : A -> result B) : result B :=
  match r with
  | Ok a => k a
  | Raise e => Raise e
  end.

Declare Scope result_scope.
Delimit Scope result_scope with result.
Notation "x <- r ;; k" := (bind r (fun x => k))
  (at level 61, r at next level, right associativity) : result_scope.
Notation "' p <- r ;; k" := (bind r (fun x => let p := x in k))
  (at level 61, p pattern, r at next level, right associativity) : result_scope.

(** [try: r except TypeError: raise TransformError("Invalid inputs")] *)
Definition except_TypeError {A} (r : result A) : result A :=
  match r with
  | Raise (TypeError _) => Raise (TransformError "Invalid inputs")
  | _ => r
  end.

(** [try: r except ValueError as err: raise TransformError(str(err))] *)
Definition except_ValueError {A} (r : result A) : result A :=
  match r with
  | Raise (ValueError msg) => Raise (TransformError msg)
  | _ => r
  end.

(** [isinstance(e, ValueError)]: none of the other exceptions of this
    model derives from [ValueError]. *)
Definition is_ValueError (e : exn) : bool :=
  match e with
  | ValueError _ => true
  | _ => false
  end.

Definition is_TransformError (e : exn) : bool :=
  match e with
  | TransformError _ => true
  | _ => false
  end.

Fixpoint mapM {A B} (f : A -> result B) (l : list A) : result (list B) :=
  match l with
  | [] => Ok []
  | x :: l' =>
      match f x with
      | Raise e => Raise e
      | Ok y =>
          match mapM f l' with
          | Raise e => Raise e
          | Ok ys => Ok (y :: ys)
          end
      end
  end.

(** [l[0]] *)
Definition item0 {A} (l : list A) : result A :=
  match l with
  | x :: _ => Ok x
  | [] => Raise IndexError
  end.

(** The warnings the module itself issues.  What numpy reports on its own
    (a [RuntimeWarning] on an overflow or an invalid operation of the
    floats) is not recorded. *)
Inductive warning : Type :=
| RasterioDeprecationWarning (msg : string).

Definition precision_warning : warning :=
  RasterioDeprecationWarning
    "The precision parameter is unused, deprecated, and will be removed in 2.0.0.".

(** What the program does to its surroundings: native handles taken from
    and given back to the geodetic engine, and the warnings the module
    issues with [warnings.warn] (most recent first). *)
Record world : Type := mkWorld {
  acquired : nat;
  released : nat;
  warnings : list warning
}.

Definition M (A : Type) : Type := world -> result A * world.

Definition ret {A} (a : A) : M A := fun w => (Ok a, w).

Definition lift {A} (r : result A) : M A := fun w => (r, w).

Definition mbind {A B} (m : M A) (k : A -> M B) : M B :=
  fun w =>
    match m w with
    | (Ok a, w') => k a w'
    | (Raise e, w') => (Raise e, w')
    end.

Declare Scope M_scope.
Delimit Scope M_scope with M.
Notation "x <- m ;; k" := (mbind m (fun x => k))
  (at level 61, m at next level, right associativity) : M_scope.
Notation "' p <- m ;; k" := (mbind m (fun x => let p := x in k))
  (at level 61, p pattern, m at next level, right associativity) : M_scope.

(** [warnings.warn(w)]: recorded, execution continues. *)
Definition warn (x : warning) : M unit :=
  fun w => (Ok tt, mkWorld (acquired w) (released w) (x :: warnings w)).

Definition acquire : M unit :=
  fun w => (Ok tt, mkWorld (S (acquired w)) (released w) (warnings w)).

Definition release : M unit :=
  fun w => (Ok tt, mkWorld (acquired w) (S (released w)) (warnings w)).

(** A computation that neither reads nor changes the world. *)
Definition pure {A} (m : M A) : Prop :=
  exists r, forall w, m w = (r, w).

(* ================================================================= *)
(** * Numbers *)

(** The arithmetic of the Python floats the module computes with.
    [of_int] converts a Python [int]; [half] is the literal [0.5];
    [ffloor] is [math.floor], which raises on NaN and infinities. *)
Class Number (R : Type) : Type := {
  of_int : Z -> R;
  half : R;
  fadd : R -> R -> R;
  fsub : R -> R -> R;
  fmul : R -> R -> R;
  fneg : R -> R;
  fdiv : R -> R -> R;
  feqb : R -> R -> bool;
  fltb : R -> R -> bool;
  ffloor : R -> result Z
}.

(** What the proofs use of [==]: all zeros are equal to each other, and
    what equals a zero is a zero. *)
Class NumberLaws (R : Type) {N : Number R} : Prop := {
  feqb_zeros : forall x y : R,
    feqb x (of_int 0) = true -> feqb y (of_int 0) = true -> feqb x y = true;
  feqb_zero_l : forall x y : R,
    feqb x y = true -> feqb y (of_int 0) = true -> feqb x (of_int 0) = true
}.

Arguments NumberLaws R {N}.

Declare Scope num_scope.
Delimit Scope num_scope with num.
Infix "+" := fadd : num_scope.
Infix "-" := fsub : num_scope.
Infix "*" := fmul : num_scope.
Notation "- x" := (fneg x) : num_scope.
Infix "==" := feqb (at level 70, no associativity) : num_scope.

Section NumberOps.
Context {R : Type} `{Number R}.

Definition zero : R := of_int 0.
Definition one : R := of_int 1.

(** Python's [x / y] on floats. *)
Definition truediv (x y : R) : result R :=
    if feqb y zero then Raise ZeroDivisionError else Ok (fdiv x y).

(** [min(t)] and [max(t)] of a non-empty tuple [x0, rest...]: the first
    smallest (largest) item, found with [<] ([>]). *)
Definition py_min (x0 : R) (rest : list R) : R :=
    fold_left (fun m x => if fltb x m then x else m) rest x0.

Definition py_max (x0 : R) (rest : list R) : R :=
    fold_left (fun m x => if fltb m x then x else m) rest x0.
End NumberOps.

(** ** IEEE-754 binary64 *)

Module F64.
Definition prec : Z := 53.
Definition emax : Z := 1024.

Definition t : Type := spec_float.

(** Conversion of an [int] in the range of the doubles, correctly
    rounded.  It is used to write literals only: an [int] beyond that
    range, which Python refuses to convert with an [OverflowError], is no
    input of the model (the function gives an infinity there). *)
Definition of_int (z : Z) : t := binary_normalize prec emax z 0 false.

Definition half : t := S754_finite false 4503599627370496 (-53).

(** [math.floor] *)
Definition floor (x : t) : result Z :=
    match x with
    | S754_zero _ => Ok 0%Z
    | S754_infinity _ => Raise OverflowError
    | S754_nan => Raise (ValueError "cannot convert float NaN to integer")
    | S754_finite s m e =>
        let n := if s then Z.neg m else Z.pos m in
        Ok (match e with
            | Z0 => n
            | Zpos p => (n * Z.pow_pos 2 p)%Z
            | Zneg p => (n / Z.pow_pos 2 p)%Z
            end)
    end.

Definition eqb (x y : t) : bool := SFeqb x y.
Definition ltb (x y : t) : bool := SFltb x y.

End F64.

#[export] Instance binary64 : Number F64.t := {
  of_int := F64.of_int;
  half := F64.half;
  fadd := SFadd F64.prec F64.emax;
  fsub := SFsub F64.prec F64.emax;
  fmul := SFmul F64.prec F64.emax;
  fneg := SFopp;
  fdiv := SFdiv F64.prec F64.emax;
  feqb := F64.eqb;
  fltb := F64.ltb;
  ffloor := F64.floor
}.

(** ** Exact rational arithmetic *)

Module Exact.
Definition floor (x : Q) : result Z := Ok (Qfloor x).

Definition ltb (x y : Q) : bool := negb (Qle_bool y x).
End Exact.

#[export] Instance exact : Number Q := {
  of_int := inject_Z;
  half := 1 # 2;
  fadd := Qplus;
  fsub := Qminus;
  fmul := Qmult;
  fneg := Qopp;
  fdiv := Qdiv;
  feqb := Qeq_bool;
  fltb := Exact.ltb;
  ffloor := Exact.floor
}.

(* ================================================================= *)
(** * The [affine] package: [Affine]

    [transform.py] imports [Affine] from the package [affine]; what it
    uses of it is embedded here after the package's definitions.  An
    [Affine] is the tuple [(a, b, c, d, e, f, 0.0, 0.0, 1.0)], the matrix
    [[a b c] [d e f] [0 0 1]]. *)

Module Affine.
Section Defs.
Context {R : Type} `{Number R}.
Local Open Scope num_scope.

Record t : Type := mk { a : R; b : R; c : R; d : R; e : R; f : R }.

(** [Affine.identity()] *)
Definition identity : t := mk one zero zero zero one zero.

(** [Affine.translation(xoff, yoff)] *)
Definition translation (xoff yoff : R) : t := mk one zero xoff zero one yoff.

(** [Affine.scale(sx, sy)] *)
Definition scale (sx sy : R) : t := mk sx zero zero zero sy zero.

(** [self * other] for another [Affine]: the matrix product. *)
Definition mul (self other : t) : t :=
  let '(mk sa sb sc sd se sf) := self in
  let '(mk oa ob oc od oe of') := other in
  mk (sa * oa + sb * od) (sa * ob + sb * oe) (sa * oc + sb * of' + sc)
     (sd * oa + se * od) (sd * ob + se * oe) (sd * oc + se * of' + sf).

(** [self * (vx, vy)]: the image of a point. *)
Definition apply (self : t) (v : R * R) : R * R :=
  let '(mk sa sb sc sd se sf) := self in
  let '(vx, vy) := v in
  (vx * sa + vy * sb + sc, vx * sd + vy * se + sf).

(** [self.determinant] *)
Definition determinant (self : t) : R :=
  a self * e self - b self * d self.

(** [self.is_degenerate]: [self.determinant == 0.0] *)
Definition is_degenerate (self : t) : bool :=
  determinant self == zero.

(** [~self]: the inverse, [TransformNotInvertibleError] for a degenerate
    transform. *)
Definition invert (self : t) : result t :=
  if is_degenerate self then Raise TransformNotInvertibleError
  else
    (idet <- truediv one (determinant self) ;;
     let '(mk sa sb sc sd se sf) := self in
     let ra := se * idet in
     let rb := - sb * idet in
     let rd := - sd * idet in
     let re := sa * idet in
     Ok (mk ra rb (- sc * ra - sf * rb) rd re (- sc * rd - sf * re)))%result.

End Defs.
Arguments t R : clear implicits.
End Affine.

(* ================================================================= *)
(** * The part of [numpy] used by [_ensure_arr_input] *)

(** [np.broadcast] on shapes, last axis first: two axes are compatible
    when they are equal or one of them is 1. *)
Fixpoint broadcast_rev (s1 s2 : list nat) : option (list nat) :=
  match s1, s2 with
  | [], s => Some s
  | s, [] => Some s
  | d1 :: r1, d2 :: r2 =>
      match broadcast_rev r1 r2 with
      | None => None
      | Some r =>
          if (d1 =? d2)%nat then Some (d1 :: r)
          else if (d1 =? 1)%nat then Some (d2 :: r)
          else if (d2 =? 1)%nat then Some (d1 :: r)
          else None
      end
  end.

Definition broadcast_shapes (s1 s2 : list nat) : option (list nat) :=
  option_map (@rev nat) (broadcast_rev (rev s1) (rev s2)).

Definition shape_mismatch : exn :=
  ValueError "shape mismatch: objects cannot be broadcast to a single shape".

(** [np.broadcast(xs, ys, zs)] seen through its [shape]; [ValueError] when
    the shapes do not broadcast. *)
Fixpoint np_broadcast_from (s : list nat) (shapes : list (list nat))
  : result (list nat) :=
  match shapes with
  | [] => Ok s
  | s' :: rest =>
      match broadcast_shapes s s' with
      | Some s'' => np_broadcast_from s'' rest
      | None => Raise shape_mismatch
      end
  end.

Definition np_broadcast (shapes : list (list nat)) : result (list nat) :=
  np_broadcast_from [] shapes.

(** [b.size] *)
Definition np_size (shape : list nat) : nat := fold_right Nat.mul 1%nat shape.

(** A shape that broadcasts to the one-dimensional shape [[n]]: that of a
    scalar, of one item, or of [n] items. *)
Definition fits (n : nat) (s : list nat) : Prop :=
  s = [] \/ s = [1%nat] \/ s = [n].

Section Coordinates.
Context {R : Type} `{Number R}.

(** A coordinate argument ([rows], [cols], [xs], [ys], [zs]) as Python
    passes it, when numpy makes an array of numbers of it: a number, a
    flat sequence of numbers, or a rectangular nested sequence or array.
    [PyNested d0 d1 dims] is a nested sequence or an array of two or more
    dimensions, of shape [d0 :: d1 :: dims]: the module rejects these
    before it reads their items, which are therefore not kept.
    Arguments of which numpy makes no array of numbers are no values of
    this type: a ragged nested sequence (on which [np.atleast_1d] raises
    [ValueError], outside the [try] of [_ensure_arr_input]), items that
    are no numbers, and an [int] beyond the range of the doubles
    ([OverflowError]). *)
Inductive pyval : Type :=
| PyNum (x : R)                         (* an int or a float *)
| PyList (l : list R)                   (* a list, tuple or 1-d array *)
| PyNested (d0 d1 : nat) (dims : list nat).

(** [hasattr(v, "__iter__")] *)
Definition has_iter (v : pyval) : bool :=
  match v with
  | PyNum _ => false
  | _ => true
  end.

(** [hasattr(zs, "__iter__")] for the optional argument; [None] has no
    [__iter__]. *)
Definition has_iter_opt (v : option pyval) : bool :=
  match v with
  | Some v => has_iter v
  | None => false
  end.

(** [np.shape(v)] *)
Definition np_shape (v : pyval) : list nat :=
  match v with
  | PyNum _ => []
  | PyList l => [List.length l]
  | PyNested d0 d1 dims => d0 :: d1 :: dims
  end.

(** [np.atleast_1d(v)] *)
Definition np_atleast_1d (v : pyval) : pyval :=
  match v with
  | PyNum x => PyList [x]
  | _ => v
  end.

Definition could_not_broadcast : exn :=
  ValueError "could not broadcast input array".

(** [row[:] = v] for a row of [n] items: [v] is broadcast to the row. *)
Definition np_setrow (n : nat) (v : pyval) : result (list R) :=
  match v with
  | PyNum x => Ok (repeat x n)
  | PyList l =>
      if (List.length l =? n)%nat then Ok l
      else match l with
           | [x] => Ok (repeat x n)
           | _ => Raise could_not_broadcast
           end
  | PyNested _ _ _ => Raise could_not_broadcast
  end.

(** [row[:] = l] for an array [l] of one dimension. *)
Definition np_setrow_arr (n : nat) (l : list R) : result (list R) :=
  np_setrow n (PyList l).

End Coordinates.
Arguments pyval R : clear implicits.

(** The two shapes of a result: a pair of scalars, or two sequences. *)
Inductive shaped (A : Type) : Type :=
| Scalars (u v : A)
| Sequences (us vs : list A).
Arguments Scalars {A} u v.
Arguments Sequences {A} us vs.

Definition is_scalars {A} (r : shaped A) : bool :=
  match r with
  | Scalars _ _ => true
  | Sequences _ _ => false
  end.

(** [rasterio.enums.TransformDirection] *)
Inductive TransformDirection : Type := forward | reverse.

(* ================================================================= *)
(** * Transformers *)

Section Transformers.
Context {R : Type} `{Number R}.
Local Open Scope num_scope.

(** What [TransformerBase] asks of its subclasses: the method
    [_transform(xs, ys, zs, transform_direction)] on arrays of one
    dimension, returning the two transformed arrays. *)
Record Transformer : Type := {
  _transform :
    list R -> list R -> list R -> TransformDirection ->
    result (list R * list R)
}.

(** One row of [np.matmul(arr, input_matrix)]: the row [(p, q, r)] of the
    3x3 matrix against the columns [(x, y, w)] of the input matrix, the
    products accumulated from left to right.  In exact arithmetic this is
    the product.  In binary64 it is one of the evaluations numpy may
    choose, each operation rounded on its own: the kernel numpy runs may
    fuse a product with a sum, or sum in another order, and need not be
    the same for one column as for several, so a result may differ from
    this one in its last place.  What is stated of a batch against its
    single points is therefore stated in exact arithmetic. *)
Fixpoint matmul_row (p q r : R) (xs ys ws : list R) : list R :=
  match xs, ys, ws with
  | x :: xs', y :: ys', w :: ws' =>
      (p * x + q * y + r * w) :: matmul_row p q r xs' ys' ws'
  | _, _, _ => []
  end.

End Transformers.
Arguments Transformer R : clear implicits.

Module AffineTransformer.
Section Defs.
Context {R : Type} `{Number R}.

(** [AffineTransformer._transform]; [zs] is not used.  The scratch array
    [_transform_arr] is overwritten with the coefficients of [transform]
    before each product, so that nothing is carried from one call to the
    next.  The rows 0 and 1 of the product are returned, row 2 is
    dropped. *)
Definition _transform (self : Affine.t R) (xs ys zs : list R)
  (transform_direction : TransformDirection) : result (list R * list R) :=
  (let n := List.length xs in
   row0 <- np_setrow_arr n xs ;;
   row1 <- np_setrow_arr n ys ;;
   let row2 := repeat one n in
   transform <- match transform_direction with
                | forward => Ok self
                | reverse => Affine.invert self
                end ;;
   let '(Affine.mk a b c d e f) := transform in
   Ok (matmul_row a b c row0 row1 row2, matmul_row d e f row0 row1 row2))%result.

(** The object [AffineTransformer(affine_transform)] as a transformer. *)
Definition new (affine_transform : Affine.t R) : Transformer R :=
  Build_Transformer (_transform affine_transform).

End Defs.
End AffineTransformer.

Module TransformerBase.
Section Defs.
Context {R : Type} `{Number R}.

(** [TransformerBase._ensure_arr_input] *)
Definition _ensure_arr_input (xs ys : pyval R) (zs : option (pyval R))
  : result (list R * list R * list R) :=
  (let xs := np_atleast_1d xs in
   b <- except_ValueError
          match zs with
          | None => np_broadcast [np_shape xs; np_shape ys]
          | Some zs => np_broadcast [np_shape xs; np_shape ys; np_shape zs]
          end ;;
   if negb (List.length b =? 1)%nat
   then Raise (TransformError "Invalid dimensions after broadcast")
   else
     let size := np_size b in
     pts0 <- np_setrow size xs ;;
     pts1 <- np_setrow size ys ;;
     pts2 <- match zs with
             | Some zs => np_setrow size zs
             | None => Ok (repeat zero size)
             end ;;
     Ok (pts0, pts1, pts2))%result.

(** What [op] returns for one item: an [int], or a float. *)
Inductive pynum : Type :=
| PyInt (z : Z)
| PyFloat (x : R).

(** The [op] argument of [rowcol]: a [numpy] ufunc, applied to whole
    arrays and giving floats, or any other callable, applied item by
    item. *)
Inductive rounding : Type :=
| ufunc (g : R -> R)
| callable (g : R -> result pynum).

(** [op(x)] for one number. *)
Definition call (op : rounding) (x : R) : result pynum :=
  match op with
  | ufunc g => Ok (PyFloat (g x))
  | callable g => g x
  end.

(** [math.floor], the default [op] *)
Definition math_floor : rounding :=
  callable (fun x => bind (ffloor x) (fun z => Ok (PyInt z))).

(** [TransformerBase.rowcol] *)
Definition rowcol (self : Transformer R) (xs ys : pyval R)
  (zs : option (pyval R)) (op : rounding) (precision : option pynum)
  : M (shaped pynum) :=
  (_ <- match precision with
        | Some _ => warn precision_warning
        | None => ret tt
        end ;;
   let AS_ARR := has_iter xs || has_iter ys || has_iter_opt zs in
   '(xs, ys, zs) <- lift (_ensure_arr_input xs ys zs) ;;
   '(new_cols, new_rows) <-
      lift (except_TypeError (_transform self xs ys zs reverse)) ;;
   if AS_ARR then
     match op with
     | ufunc g =>
         let new_cols := map g new_cols in
         let new_rows := map g new_rows in
         ret (Sequences (map PyFloat new_rows) (map PyFloat new_cols))
     | callable _ =>
         rows <- lift (mapM (call op) new_rows) ;;
         cols <- lift (mapM (call op) new_cols) ;;
         ret (Sequences rows cols)
     end
   else
     row <- lift (bind (item0 new_rows) (call op)) ;;
     col <- lift (bind (item0 new_cols) (call op)) ;;
     ret (Scalars row col))%M.

(** The [(coff, roff)] of an [offset], [TransformError] for any other
    string. *)
Definition offset_fractions (offset : string) : result (R * R) :=
  if (offset =? "center")%string then Ok (half, half)
  else if (offset =? "ul")%string then Ok (zero, zero)
  else if (offset =? "ur")%string then Ok (one, zero)
  else if (offset =? "ll")%string then Ok (zero, one)
  else if (offset =? "lr")%string then Ok (one, one)
  else Raise (TransformError "Invalid offset").

(** [TransformerBase.xy] *)
Definition xy (self : Transformer R) (rows cols : pyval R)
  (zs : option (pyval R)) (offset : string) : result (shaped R) :=
  (let AS_ARR := has_iter rows in
   '(rows, cols, zs) <- _ensure_arr_input rows cols zs ;;
   '(coff, roff) <- offset_fractions offset ;;
   except_TypeError
     (let T := Affine.translation coff roff in
      let identity_transformer := AffineTransformer.new T in
      '(offset_cols, offset_rows) <-
         _transform identity_transformer cols rows zs forward ;;
      '(new_xs, new_ys) <-
         _transform self offset_cols offset_rows zs forward ;;
      if (List.length new_xs =? 1)%nat && negb AS_ARR
      then (x <- item0 new_xs ;; y <- item0 new_ys ;; Ok (Scalars x y))
      else Ok (Sequences new_xs new_ys)))%result.

End Defs.
Arguments rounding R : clear implicits.
Arguments pynum R : clear implicits.
End TransformerBase.

(* ================================================================= *)
(** * Affine transforms of rasters *)

Section Rasters.
Context {R : Type} `{Number R}.
Local Open Scope num_scope.

(** [from_origin(west, north, xsize, ysize)] *)
Definition from_origin (west north xsize ysize : R) : Affine.t R :=
  Affine.mul (Affine.translation west north) (Affine.scale xsize (- ysize)).

(** [from_bounds(west, south, east, north, width, height)] *)
Definition from_bounds (west south east north width height : R)
  : result (Affine.t R) :=
  (sx <- truediv (east - west) width ;;
   sy <- truediv (south - north) height ;;
   Ok (Affine.mul (Affine.translation west north) (Affine.scale sx sy)))%result.

(** [array_bounds(height, width, transform)]: the tuple
    [(west, south, east, north)]. *)
Definition array_bounds (height width : R) (transform : Affine.t R)
  : R * R * R * R :=
  let '(Affine.mk a b c d e f) := transform in
  if (b == d) && (d == zero) then
    (c, f + e * height, c + a * width, f)
  else
    let '(c0x, c0y) := (c, f) in
    let '(c1x, c1y) := Affine.apply transform (zero, height) in
    let '(c2x, c2y) := Affine.apply transform (width, height) in
    let '(c3x, c3y) := Affine.apply transform (width, zero) in
    (py_min c0x [c1x; c2x; c3x], py_min c0y [c1y; c2y; c3y],
     py_max c0x [c1x; c2x; c3x], py_max c0y [c1y; c2y; c3y]).

End Rasters.

(* ================================================================= *)
(** * The geodetic engine and the transformers built on it *)

(** What lies outside [transform.py]: the classes of ground control points
    and of RPC models, and GDAL's evaluation of a fitted model. *)
Class GeodeticEngine (R : Type) : Type := {
  RPC : Type;                     (* rasterio.rpc.RPC *)
  GroundControlPoint : Type;      (* rasterio.control.GroundControlPoint *)
  rpc_options : Type;             (* options of GDALCreateRPCTransformer *)
  rpc_of_dict : list string -> option RPC;
  gcp_evaluate :
    list GroundControlPoint -> bool ->
    list R -> list R -> list R -> TransformDirection ->
    result (list R * list R);
  rpc_evaluate :
    RPC -> rpc_options ->
    list R -> list R -> list R -> TransformDirection ->
    result (list R * list R)
}.

Section Objects.
Context {R : Type} `{Number R} {gdal : GeodeticEngine R}.

(** Python objects a caller may pass where a GCP sequence or an RPC model
    is expected. *)
#[warnings="-register-all"]
Inductive pyobj : Type :=
| ObjRPC (rpcs : RPC)
| ObjDict (keys : list string)          (* a dict with these keys *)
| ObjGCP (g : GroundControlPoint)
| ObjNumber (x : R)                     (* an int or a float *)
| ObjSequence (items : list pyobj).     (* a list or a tuple *)

(** The [transform] argument of the module's functions. *)
Inductive transform_arg : Type :=
| TNone
| TAffine (T : Affine.t R)
| TObj (o : pyobj).

(** [len(o)] *)
Definition py_len (o : pyobj) : result nat :=
  match o with
  | ObjSequence items => Ok (List.length items)
  | ObjDict keys => Ok (List.length keys)
  | _ => Raise (TypeError "object has no len()")
  end.

(** [o[0]] *)
Definition py_getitem0 (o : pyobj) : result pyobj :=
  match o with
  | ObjSequence items => item0 items
  | ObjDict _ => Raise KeyError
  | _ => Raise (TypeError "object is not subscriptable")
  end.

(** [isinstance(o, GroundControlPoint)] *)
Definition is_GroundControlPoint (o : pyobj) : bool :=
  match o with
  | ObjGCP _ => true
  | _ => false
  end.

(** [isinstance(o, (RPC, dict))] *)
Definition is_RPC_or_dict (o : pyobj) : bool :=
  match o with
  | ObjRPC _ | ObjDict _ => true
  | _ => false
  end.

(** The model a GDAL transformer object holds. *)
Inductive gdal_model : Type :=
| GCPModel (gcps : list GroundControlPoint) (tps : bool)
| RPCModel (rpcs : RPC) (options : rpc_options).

(** A sequence all of whose items are ground control points. *)
Fixpoint all_gcps (items : list pyobj) : option (list GroundControlPoint) :=
  match items with
  | [] => Some []
  | ObjGCP g :: items' => option_map (cons g) (all_gcps items')
  | _ :: _ => None
  end.

(** Modelled from the spec: [GCPTransformerBase.__init__] of
    [rasterio/_transform.pyx], which is not among the sources.  Section
    4.3: construction requires a non-empty GCP sequence and fails with a
    [ValueError] for an empty sequence or an object that is not a GCP
    sequence; no external resource is acquired by construction, the
    acquisition being deferred until the scope is entered. *)
Definition GCPTransformerBase_init (gcps : pyobj) (tps : bool)
  : M gdal_model :=
  match gcps with
  | ObjSequence (g :: items) =>
      match all_gcps (g :: items) with
      | Some l => ret (GCPModel l tps)
      | None => lift (Raise (ValueError "not a sequence of GroundControlPoint"))
      end
  | _ => lift (Raise (ValueError "a non-empty GCP sequence is required"))
  end.

(** Modelled from the spec: [RPCTransformerBase.__init__] of
    [rasterio/_transform.pyx], which is not among the sources.  Section
    4.3: construction requires a well-formed RPC model and fails with a
    [ValueError] otherwise, before any external resource is acquired. *)
Definition RPCTransformerBase_init (rpcs : pyobj) (options : rpc_options)
  : M gdal_model :=
  match rpcs with
  | ObjRPC r => ret (RPCModel r options)
  | ObjDict keys =>
      match rpc_of_dict keys with
      | Some r => ret (RPCModel r options)
      | None => lift (Raise (ValueError "not a well-formed RPC model"))
      end
  | _ => lift (Raise (ValueError "an RPC model is required"))
  end.

End Objects.
Arguments pyobj R {gdal}.
Arguments transform_arg R {gdal}.
Arguments gdal_model R {gdal}.

Module RPCTransformer.
Section Defs.
Context {R : Type} `{Number R} {gdal : GeodeticEngine R}.

(** [RPCTransformer.__init__] *)
Definition init (rpcs : pyobj R) (options : rpc_options) : M (gdal_model R) :=
  if negb (is_RPC_or_dict rpcs)
  then lift (Raise (ValueError "RPCTransformer requires RPC"))
  else RPCTransformerBase_init rpcs options.

End Defs.
End RPCTransformer.

Module GCPTransformer.
Section Defs.
Context {R : Type} `{Number R} {gdal : GeodeticEngine R}.

(** [GCPTransformer.__init__]: [len(gcps) and not isinstance(gcps[0], ...)]
    looks at [gcps[0]] only when [len(gcps)] is not zero. *)
Definition init (gcps : pyobj R) (tps : bool) : M (gdal_model R) :=
  (n <- lift (py_len gcps) ;;
   bad <- (if (n =? 0)%nat then ret false
           else (g0 <- lift (py_getitem0 gcps) ;;
                 ret (negb (is_GroundControlPoint g0)))) ;;
   if bad : bool
   then lift (Raise (ValueError
                       "GCPTransformer requires sequence of GroundControlPoint"))
   else GCPTransformerBase_init gcps tps)%M.

End Defs.
End GCPTransformer.

(* ================================================================= *)
(** * The module's functions [get_transformer], [xy], [rowcol] *)

Section Functions.
Context {R : Type} `{Number R} {gdal : GeodeticEngine R}.

(** What [get_transformer] returns: a [functools.partial] of one of the
    three classes, to be called with no argument. *)
Inductive transformer_cls : Type :=
| partial_AffineTransformer (transform : transform_arg R)
| partial_RPCTransformer (transform : pyobj R) (options : rpc_options)
| partial_GCPTransformer (transform : pyobj R).

(** A transformer object. *)
Inductive transformer_obj : Type :=
| an_AffineTransformer (affine_transform : Affine.t R)
| a_GDALTransformer (model : gdal_model R).

(** [get_transformer(transform, **rpc_options)] *)
Definition get_transformer (transform : transform_arg R)
  (options : rpc_options) : result transformer_cls :=
  match transform with
  | TNone => Raise (ValueError "Invalid transform")
  | TAffine _ => Ok (partial_AffineTransformer transform)
  | TObj (ObjRPC r) => Ok (partial_RPCTransformer (ObjRPC r) options)
  | TObj o => Ok (partial_GCPTransformer o)
  end.

(** [AffineTransformer.__init__] *)
Definition AffineTransformer_init (affine_transform : transform_arg R)
  : result (Affine.t R) :=
  match affine_transform with
  | TAffine T => Ok T
  | _ => Raise (ValueError "Not an affine transform")
  end.

(** [transformer_cls()] *)
Definition construct (cls : transformer_cls) : M transformer_obj :=
  match cls with
  | partial_AffineTransformer transform =>
      (T <- lift (AffineTransformer_init transform) ;;
       ret (an_AffineTransformer T))%M
  | partial_RPCTransformer transform options =>
      (m <- RPCTransformer.init transform options ;;
       ret (a_GDALTransformer m))%M
  | partial_GCPTransformer transform =>
      (m <- GCPTransformer.init transform false ;;
       ret (a_GDALTransformer m))%M
  end.

(** The [_transform] method of a transformer object; for the GDAL
    transformers it hands the arrays to the engine. *)
Definition as_transformer (obj : transformer_obj) : Transformer R :=
  match obj with
  | an_AffineTransformer T => AffineTransformer.new T
  | a_GDALTransformer (GCPModel gcps tps) =>
      Build_Transformer (gcp_evaluate gcps tps)
  | a_GDALTransformer (RPCModel rpcs options) =>
      Build_Transformer (rpc_evaluate rpcs options)
  end.

(** [__enter__]: nothing for [TransformerBase]; the GDAL transformers
    enter the GDAL environment and open their handle. *)
Definition enter (obj : transformer_obj) : M unit :=
  match obj with
  | an_AffineTransformer _ => ret tt
  | a_GDALTransformer _ => acquire
  end.

(** [__exit__]: nothing for [TransformerBase]; the GDAL transformers
    close. *)
Definition exit (obj : transformer_obj) : M unit :=
  match obj with
  | an_AffineTransformer _ => ret tt
  | a_GDALTransformer _ => release
  end.

(** [with transformer_cls() as transformer: return body(transformer)]:
    [__exit__] runs whether or not the body raised, and lets the
    exception through. *)
Definition with_transformer {A} (cls : transformer_cls)
  (body : Transformer R -> M A) : M A :=
  fun w =>
    match construct cls w with
    | (Raise e, w1) => (Raise e, w1)
    | (Ok obj, w1) =>
        match enter obj w1 with
        | (Raise e, w2) => (Raise e, w2)
        | (Ok _, w2) =>
            let '(r, w3) := body (as_transformer obj) w2 in
            (r, snd (exit obj w3))
        end
    end.

(** [xy(transform, rows, cols, zs, offset, **rpc_options)] *)
Definition xy (transform : transform_arg R) (rows cols : pyval R)
  (zs : option (pyval R)) (offset : string) (options : rpc_options)
  : M (shaped R) :=
  (transformer_cls <- lift (get_transformer transform options) ;;
   with_transformer transformer_cls
     (fun transformer => lift (TransformerBase.xy transformer rows cols zs offset)))%M.

(** [rowcol(transform, xs, ys, zs, op, precision, **rpc_options)] *)
Definition rowcol (transform : transform_arg R) (xs ys : pyval R)
  (zs : option (pyval R)) (op : TransformerBase.rounding R)
  (precision : option (TransformerBase.pynum R)) (options : rpc_options)
  : M (shaped (TransformerBase.pynum R)) :=
  (_ <- match precision with
        | Some _ => warn precision_warning
        | None => ret tt
        end ;;
   transformer_cls <- lift (get_transformer transform options) ;;
   with_transformer transformer_cls
     (fun transformer => TransformerBase.rowcol transformer xs ys zs op None))%M.

End Functions.

(** An engine with no model at all, for the affine examples. *)
Definition no_engine (R : Type) : GeodeticEngine R := {|
  RPC := Empty_set;
  GroundControlPoint := Empty_set;
  rpc_options := unit;
  rpc_of_dict := fun _ => None;
  gcp_evaluate := fun _ _ _ _ _ _ => Raise (EngineError "no engine");
  rpc_evaluate := fun _ _ _ _ _ _ => Raise (EngineError "no engine")
|}.

Definition world0 : world := mkWorld 0 0 [].

(* ================================================================= *)
(** * GDAL-style geotransforms: [tastes_like_gdal], [guard_transform] *)

Section Guard.
Context {R : Type} `{Number R}.
Local Open Scope num_scope.

(** [Affine.to_gdal()] of the package [affine]: the coefficients in the
    order of GDAL, [(c, a, b, f, d, e)]. *)
Definition Affine_to_gdal (T : Affine.t R) : list R :=
  [Affine.c T; Affine.a T; Affine.b T; Affine.f T; Affine.d T; Affine.e T].

(** [Affine(a, b, c, d, e, f)] called with the items of a sequence as
    arguments: the constructor of six coefficients, as every version of
    the package [affine] has it.  A call with fewer than six arguments is
    a [TypeError]; so is, here, a call with more (a version of [affine]
    that also takes the last row [g, h, i] accepts nine, which the six
    coefficients of [Affine.t] do not hold: sequences of more than six
    items are not covered). *)
Definition Affine_new (args : list R) : result (Affine.t R) :=
  match args with
  | [a; b; c; d; e; f] => Ok (Affine.mk a b c d e f)
  | _ => Raise (TypeError "Affine() takes six coefficients")
  end.

(** [IDENTITY] and [GDAL_IDENTITY] *)
Definition IDENTITY : Affine.t R := Affine.identity.
Definition GDAL_IDENTITY : list R := Affine_to_gdal IDENTITY.

(** [seq[i]] *)
Definition getitem (seq : list R) (i : nat) : result R :=
  match nth_error seq i with
  | Some x => Ok x
  | None => Raise IndexError
  end.

(** [tuple(s) == t]: the same number of items, equal one by one. *)
Fixpoint tuple_eqb (s t : list R) : bool :=
  match s, t with
  | [], [] => true
  | x :: s', y :: t' => (x == y) && tuple_eqb s' t'
  | _, _ => false
  end.

(** [tastes_like_gdal(seq)]; the chain [seq[2] == seq[4] == 0.0] reads
    [seq[2]] and [seq[4]] once, and the items 1 and 5 are read only when
    the tests before them hold. *)
Definition tastes_like_gdal (seq : list R) : result bool :=
  if tuple_eqb seq GDAL_IDENTITY then Ok true
  else
    (s2 <- getitem seq 2 ;;
     s4 <- getitem seq 4 ;;
     if (s2 == s4) && (s4 == zero) then
       s1 <- getitem seq 1 ;;
       if fltb zero s1 then
         s5 <- getitem seq 5 ;;
         Ok (fltb s5 zero)
       else Ok false
     else Ok false)%result.

(** The argument of [guard_transform]: an [Affine], or a sequence of
    numbers. *)
Inductive transform_like : Type :=
| an_Affine (T : Affine.t R)
| a_sequence (seq : list R).

(** [guard_transform(transform)] *)
Definition guard_transform (transform : transform_like)
  : result (Affine.t R) :=
  match transform with
  | an_Affine T => Ok T
  | a_sequence seq =>
      (gdal <- tastes_like_gdal seq ;;
       if gdal : bool
       then Raise (TypeError "GDAL-style transforms have been deprecated.")
       else Affine_new seq)%result
  end.

End Guard.
Arguments transform_like R : clear implicits.

(** The images of the points [(xs[i], ys[i])] by an affine transform, as
    [AffineTransformer._transform] computes them in the forward
    direction. *)
Definition affine_points {R : Type} `{Number R} (T : Affine.t R)
  (xs ys : list R) : list R * list R :=
  (matmul_row (Affine.a T) (Affine.b T) (Affine.c T) xs ys
     (repeat one (List.length xs)),
   matmul_row (Affine.d T) (Affine.e T) (Affine.f T) xs ys
     (repeat one (List.length xs))).

(** Two transforms over the rationals with equal coefficients. *)
Definition Affine_Qeq (S T : Affine.t Q) : Prop :=
  (Affine.a S == Affine.a T /\ Affine.b S == Affine.b T /\
   Affine.c S == Affine.c T /\ Affine.d S == Affine.d T /\
   Affine.e S == Affine.e T /\ Affine.f S == Affine.f T)%Q.

(* ================================================================= *)
(** * Properties *)

Unset Implicit Arguments.

(** ** The arithmetic instances *)

Lemma F64_eqb_zero_inv (x : F64.t) :
  F64.eqb x (F64.of_int 0) = true -> exists s, x = S754_zero s.
Proof.
  destruct x as [s| s | |s m e]; cbn; try discriminate.
  - intros _. now exists s.
  - destruct s; discriminate.
  - destruct s; discriminate.
Qed.

#[export] Instance binary64_laws : NumberLaws F64.t.
Proof.
  split; cbn.
  - intros x y Hx Hy.
    destruct (F64_eqb_zero_inv _ Hx) as [s ->].
    destruct (F64_eqb_zero_inv _ Hy) as [s' ->].
    reflexivity.
  - intros x y Hxy Hy.
    destruct (F64_eqb_zero_inv _ Hy) as [s' ->].
    destruct x as [s| s | |s m e]; cbn in *; try discriminate; try reflexivity.
    + destruct s; discriminate.
    + destruct s; discriminate.
Qed.

#[export] Instance exact_laws : NumberLaws Q.
Proof.
  split; cbn.
  - intros x y Hx Hy. apply Qeq_bool_iff.
    apply Qeq_bool_iff in Hx. apply Qeq_bool_iff in Hy.
    now rewrite Hx, Hy.
  - intros x y Hxy Hy. apply Qeq_bool_iff.
    apply Qeq_bool_iff in Hxy. apply Qeq_bool_iff in Hy.
    now rewrite Hxy, Hy.
Qed.

(** ** Broadcasting *)

Lemma broadcast_rev_length (s1 s2 r : list nat) :
  broadcast_rev s1 s2 = Some r ->
  List.length r = Nat.max (List.length s1) (List.length s2).
Proof.
  revert s2 r. induction s1 as [|d1 r1 IH]; intros [|d2 r2] r; cbn.
  - intros [= <-]. reflexivity.
  - intros [= <-]. reflexivity.
  - intros [= <-]. reflexivity.
  - destruct (broadcast_rev r1 r2) as [r'|] eqn:E; [|discriminate].
    specialize (IH _ _ E).
    destruct (d1 =? d2)%nat; [intros [= <-]; cbn; lia|].
    destruct (d1 =? 1)%nat; [intros [= <-]; cbn; lia|].
    destruct (d2 =? 1)%nat; [intros [= <-]; cbn; lia|discriminate].
Qed.

Lemma broadcast_shapes_length (s1 s2 r : list nat) :
  broadcast_shapes s1 s2 = Some r ->
  List.length r = Nat.max (List.length s1) (List.length s2).
Proof.
  unfold broadcast_shapes.
  destruct (broadcast_rev (rev s1) (rev s2)) as [r'|] eqn:E; [|discriminate].
  intros [= <-]. rewrite length_rev, (broadcast_rev_length _ _ _ E).
  now rewrite !length_rev.
Qed.

Lemma broadcast_shapes_1d (s1 s2 : list nat) (n : nat) :
  broadcast_shapes s1 s2 = Some [n] -> fits n s1 /\ fits n s2.
Proof.
  intros E. pose proof (broadcast_shapes_length _ _ _ E) as L. cbn in L.
  destruct s1 as [|d1 [|? ?]]; destruct s2 as [|d2 [|? ?]];
    cbn in L; try lia; unfold fits; unfold broadcast_shapes in E; cbn in E.
  - injection E as <-. auto.
  - injection E as <-. auto.
  - revert E.
    destruct (Nat.eqb_spec d1 d2) as [->|]; [intros [= <-]; auto|].
    destruct (Nat.eqb_spec d1 1) as [->|]; [intros [= <-]; auto|].
    destruct (Nat.eqb_spec d2 1) as [->|]; [intros [= <-]; auto|discriminate].
Qed.

Lemma broadcast_shapes_nil_l (s : list nat) : broadcast_shapes [] s = Some s.
Proof.
  unfold broadcast_shapes. cbn. now rewrite rev_involutive.
Qed.

Lemma fits_of_fits (n : nat) (s12 s1 s2 : list nat) :
  broadcast_shapes s1 s2 = Some s12 -> fits n s12 -> fits n s1 /\ fits n s2.
Proof.
  intros E [->|[->| ->]].
  - apply broadcast_shapes_length in E. cbn in E.
    destruct s1, s2; cbn in E; try lia. unfold fits; auto.
  - apply broadcast_shapes_1d in E. unfold fits in *. intuition auto.
  - now apply broadcast_shapes_1d.
Qed.

Section EnsureArrInput.
Context {R : Type} `{Number R}.

Lemma np_setrow_length (n : nat) (v : pyval R) (l : list R) :
  np_setrow n v = Ok l -> List.length l = n.
Proof.
  destruct v as [x|l'|]; cbn.
  - intros [= <-]. apply repeat_length.
  - destruct (Nat.eqb_spec (List.length l') n).
    + now intros [= <-].
    + destruct l' as [|x [|? ?]]; try discriminate.
      intros [= <-]. apply repeat_length.
  - discriminate.
Qed.

Lemma np_setrow_fits (n : nat) (v : pyval R) :
  fits n (np_shape v) -> exists l, np_setrow n v = Ok l.
Proof.
  destruct v as [x|l'|]; cbn; intros [E|[E|E]]; try discriminate; eauto.
  - injection E as E.
    destruct (Nat.eqb_spec (List.length l') n); eauto.
    destruct l' as [|x [|? ?]]; try discriminate. eauto.
  - injection E as E. rewrite E, Nat.eqb_refl. eauto.
Qed.

Lemma np_size_1d (n : nat) : np_size [n] = n.
Proof. cbn. lia. Qed.

(** [_ensure_arr_input] raises nothing but [TransformError], and what it
    returns are three arrays of the same length. *)
Lemma ensure_arr_input_cases (xs ys : pyval R) (zs : option (pyval R)) :
  (exists msg,
      TransformerBase._ensure_arr_input xs ys zs = Raise (TransformError msg)) \/
  (exists p0 p1 p2,
      TransformerBase._ensure_arr_input xs ys zs = Ok (p0, p1, p2) /\
      List.length p1 = List.length p0 /\ List.length p2 = List.length p0).
Proof.
  unfold TransformerBase._ensure_arr_input.
  set (xs' := np_atleast_1d xs).
  assert (B : exists b,
             match zs with
             | Some z => np_broadcast [np_shape xs'; np_shape ys; np_shape z]
             | None => np_broadcast [np_shape xs'; np_shape ys]
             end = b /\
             (b = Raise shape_mismatch \/
              exists s, b = Ok s /\
                (s = [np_size s] ->
                 fits (np_size s) (np_shape xs') /\ fits (np_size s) (np_shape ys) /\
                 match zs with
                 | Some z => fits (np_size s) (np_shape z)
                 | None => True
                 end))).
  { eexists; split; [reflexivity|].
    unfold np_broadcast; cbn [np_broadcast_from]. rewrite broadcast_shapes_nil_l.
    destruct (broadcast_shapes (np_shape xs') (np_shape ys)) as [s12|] eqn:E12;
      [|destruct zs; auto].
    destruct zs as [z|].
    - destruct (broadcast_shapes s12 (np_shape z)) as [s|] eqn:E3; [|auto].
      right. exists s. split; [reflexivity|]. intros Es. rewrite Es in E3.
      apply broadcast_shapes_1d in E3 as [F12 F3].
      destruct (fits_of_fits _ _ _ _ E12 F12). auto.
    - right. exists s12. split; [reflexivity|]. intros Es. rewrite Es in E12.
      apply broadcast_shapes_1d in E12 as [F1 F2]. auto. }
  destruct B as (b & -> & [-> | (s & -> & F)]).
  { left. eexists. reflexivity. }
  cbn [except_ValueError bind].
  destruct s as [|n [|? ?]]; cbn [List.length Nat.eqb negb];
    try (left; eexists; reflexivity).
  destruct F as (F1 & F2 & F3); [now rewrite np_size_1d|].
  destruct (np_setrow_fits _ _ F1) as [p0 E0].
  destruct (np_setrow_fits _ _ F2) as [p1 E1].
  right. rewrite E0, E1. cbn [bind].
  pose proof (np_setrow_length _ _ _ E0) as L0.
  pose proof (np_setrow_length _ _ _ E1) as L1.
  destruct zs as [z|].
  - destruct (np_setrow_fits _ _ F3) as [p2 E2]. rewrite E2. cbn [bind].
    pose proof (np_setrow_length _ _ _ E2) as L2.
    exists p0, p1, p2. repeat split; congruence.
  - cbn [bind]. exists p0, p1, (repeat zero (np_size [n])).
    repeat split; [congruence|]. rewrite repeat_length. congruence.
Qed.

End EnsureArrInput.

(** ** The affine transformer *)

Section AffineLemmas.
Context {R : Type} `{Number R}.

Lemma matmul_row_length (p q r : R) (xs ys ws : list R) :
  List.length ys = List.length xs -> List.length ws = List.length xs ->
  List.length (matmul_row p q r xs ys ws) = List.length xs.
Proof.
  revert ys ws. induction xs as [|x xs IH]; intros [|y ys] [|w ws]; cbn;
    try discriminate; try reflexivity.
  intros [= Hy] [= Hw]. now rewrite IH.
Qed.

Lemma affine_transform_forward (T : Affine.t R) (xs ys zs : list R) :
  List.length ys = List.length xs ->
  AffineTransformer._transform T xs ys zs forward =
  Ok (matmul_row (Affine.a T) (Affine.b T) (Affine.c T) xs ys
        (repeat one (List.length xs)),
      matmul_row (Affine.d T) (Affine.e T) (Affine.f T) xs ys
        (repeat one (List.length xs))).
Proof.
  intros L. unfold AffineTransformer._transform, np_setrow_arr, np_setrow.
  rewrite L, Nat.eqb_refl. cbn [bind]. now destruct T.
Qed.

Lemma affine_transform_reverse_degenerate (T : Affine.t R) (xs ys zs : list R) :
  Affine.is_degenerate T = true ->
  List.length ys = List.length xs ->
  AffineTransformer._transform T xs ys zs reverse =
  Raise TransformNotInvertibleError.
Proof.
  intros D L. unfold AffineTransformer._transform, np_setrow_arr, np_setrow.
  rewrite L, Nat.eqb_refl. cbn [bind]. unfold Affine.invert. now rewrite D.
Qed.

End AffineLemmas.

Section ModuleFunctions.
Context {R : Type} `{Number R} {gdal : GeodeticEngine R}.

(** With an [Affine], the functions [xy] and [rowcol] of the module are
    the methods of an [AffineTransformer], and leave the world as it
    is. *)
Lemma xy_affine (T : Affine.t R) rows cols zs offset options (w : world) :
  xy (TAffine T) rows cols zs offset options w =
  (TransformerBase.xy (AffineTransformer.new T) rows cols zs offset, w).
Proof. reflexivity. Qed.

Lemma with_affine {A : Type} (T : Affine.t R) (body : Transformer R -> M A)
  (w : world) :
  with_transformer (partial_AffineTransformer (TAffine T)) body w =
  body (AffineTransformer.new T) w.
Proof.
  change (with_transformer (partial_AffineTransformer (TAffine T)) body w)
    with (let '(r, w3) := body (AffineTransformer.new T) w in (r, w3)).
  now destruct (body (AffineTransformer.new T) w).
Qed.

Lemma rowcol_affine (T : Affine.t R) xs ys zs op options (w : world) :
  rowcol (TAffine T) xs ys zs op None options w =
  TransformerBase.rowcol (AffineTransformer.new T) xs ys zs op None w.
Proof.
  change (rowcol (TAffine T) xs ys zs op None options w)
    with (with_transformer (partial_AffineTransformer (TAffine T))
            (fun t => TransformerBase.rowcol t xs ys zs op None) w).
  apply with_affine.
Qed.

End ModuleFunctions.

(** ** The worked examples of the specification *)

(** C7. [array_bounds(2, 2, from_origin(0, 10, 1, 1))] is
    [(0, 8, 2, 10)], in binary64 as in exact arithmetic. *)
Theorem C7_array_bounds_example :
  array_bounds (of_int 2) (of_int 2)
    (from_origin (of_int 0) (of_int 10) (of_int 1) (of_int 1) : Affine.t F64.t)
  = (of_int 0, of_int 8, of_int 2, of_int 10) /\
  array_bounds (of_int 2) (of_int 2)
    (from_origin (of_int 0) (of_int 10) (of_int 1) (of_int 1) : Affine.t Q)
  = (of_int 0, of_int 8, of_int 2, of_int 10).
Proof. split; vm_compute; reflexivity. Qed.

Section Offsets.
Context {R : Type} `{Number R}.

Lemma offset_fractions_invalid (offset : string) :
  ~ In offset ["center"; "ul"; "ur"; "ll"; "lr"]%string ->
  TransformerBase.offset_fractions (R:=R) offset =
  Raise (TransformError "Invalid offset").
Proof.
  intros N. unfold TransformerBase.offset_fractions.
  repeat match goal with
         | |- context [String.eqb offset ?s] =>
             destruct (String.eqb_spec offset s) as [->|_];
             [exfalso; apply N; cbn; tauto|]
         end.
  reflexivity.
Qed.

Lemma xy_invalid_offset (t : Transformer R) rows cols zs (offset : string) :
  ~ In offset ["center"; "ul"; "ur"; "ll"; "lr"]%string ->
  exists msg, TransformerBase.xy t rows cols zs offset = Raise (TransformError msg).
Proof.
  intros N. unfold TransformerBase.xy.
  destruct (ensure_arr_input_cases rows cols zs)
    as [[msg ->]|(p0 & p1 & p2 & -> & _)]; cbn [bind].
  - now exists msg.
  - rewrite (offset_fractions_invalid _ N). cbn. eauto.
Qed.

End Offsets.

(** C6. The offset table of [from_origin(0, 10, 2, 2)]: the upper left
    corner of pixel (0, 0) is (0, 10), its centre (1, 9), its lower right
    corner (2, 8); and with an offset that is none of the five names [xy]
    raises [TransformError], whatever the transformer and the
    coordinates. *)
Theorem C6_offset_table :
  let T : Affine.t F64.t :=
    from_origin (of_int 0) (of_int 10) (of_int 2) (of_int 2) in
  let xy0 offset :=
    fst (xy (gdal := no_engine F64.t) (TAffine T)
           (PyNum (of_int 0)) (PyNum (of_int 0)) None offset tt world0) in
  xy0 "ul"%string = Ok (Scalars (of_int 0) (of_int 10)) /\
  xy0 "center"%string = Ok (Scalars (of_int 1) (of_int 9)) /\
  xy0 "lr"%string = Ok (Scalars (of_int 2) (of_int 8)) /\
  (forall (R : Type) (N : Number R) (gdal : GeodeticEngine R)
          (T : Affine.t R) (t : Transformer R) rows cols zs offset options w,
      ~ In offset ["center"; "ul"; "ur"; "ll"; "lr"]%string ->
      (exists msg,
          fst (xy (TAffine T) rows cols zs offset options w)
          = Raise (TransformError msg)) /\
      (exists msg,
          TransformerBase.xy t rows cols zs offset = Raise (TransformError msg))).
Proof.
  cbv zeta. repeat split; try (vm_compute; reflexivity).
  - rewrite xy_affine. cbn [fst]. now apply xy_invalid_offset.
  - now apply xy_invalid_offset.
Qed.

Lemma C6_offset_table_witness :
  exists msg,
    fst (xy (gdal := no_engine F64.t)
           (TAffine (from_origin (of_int 0) (of_int 10) (of_int 2) (of_int 2)))
           (PyNum (of_int 0)) (PyNum (of_int 0)) None "bogus" tt world0)
    = Raise (TransformError msg).
Proof.
  refine (proj1 (proj2 (proj2 (proj2 C6_offset_table))
                  F64.t binary64 (no_engine F64.t) _
                  (AffineTransformer.new Affine.identity)
                  _ _ _ "bogus"%string tt world0 _)).
  cbn. intros [E|[E|[E|[E|[E|[]]]]]]; discriminate E.
Defined.

(** ** Validation of the coordinate arguments *)

Section Validation.
Context {R : Type} `{Number R}.

(** Shapes that do not broadcast are refused with [TransformError]. *)
Lemma ensure_arr_input_shape_mismatch (xs ys : pyval R) :
  broadcast_shapes (np_shape (np_atleast_1d xs)) (np_shape ys) = None ->
  forall zs, exists msg,
    TransformerBase._ensure_arr_input xs ys zs = Raise (TransformError msg).
Proof.
  intros E zs. unfold TransformerBase._ensure_arr_input, np_broadcast.
  cbn [np_broadcast_from]. rewrite broadcast_shapes_nil_l, E.
  destruct zs; cbn; eauto.
Qed.

(** An argument of two or more dimensions is refused with
    [TransformError]. *)
Lemma ensure_arr_input_nested (xs ys : pyval R) (zs : option (pyval R)) :
  (2 <= List.length (np_shape xs) \/ 2 <= List.length (np_shape ys) \/
   exists z, zs = Some z /\ 2 <= List.length (np_shape z))%nat ->
  exists msg,
    TransformerBase._ensure_arr_input xs ys zs = Raise (TransformError msg).
Proof.
  intros D.
  destruct (ensure_arr_input_cases xs ys zs)
    as [[msg E]|(p0 & p1 & p2 & E & _)]; [eauto|exfalso].
  revert E. unfold TransformerBase._ensure_arr_input, np_broadcast.
  cbn [np_broadcast_from]. rewrite broadcast_shapes_nil_l.
  destruct (broadcast_shapes (np_shape (np_atleast_1d xs)) (np_shape ys))
    as [s12|] eqn:E12; [|destruct zs; discriminate].
  pose proof (broadcast_shapes_length _ _ _ E12) as L12.
  assert (Lx : List.length (np_shape (np_atleast_1d xs)) =
               Nat.max 1 (List.length (np_shape xs))).
  { destruct xs as [| |? ? dims]; cbn; lia. }
  destruct zs as [z|].
  - destruct (broadcast_shapes s12 (np_shape z)) as [s|] eqn:E3; [|discriminate].
    pose proof (broadcast_shapes_length _ _ _ E3) as L3.
    cbn [except_ValueError bind].
    destruct (Nat.eqb_spec (List.length s) 1) as [L|L]; [|discriminate].
    exfalso. destruct D as [D|[D|(z' & [= <-] & D)]]; lia.
  - cbn [except_ValueError bind].
    destruct (Nat.eqb_spec (List.length s12) 1) as [L|L]; [|discriminate].
    exfalso. destruct D as [D|[D|(z' & [=] & D)]]; lia.
Qed.

End Validation.

(** Lengths 2 and 1 broadcast, lengths 3 and 2 do not. *)
Example broadcast_2_1 : np_broadcast [[2%nat]; [1%nat]] = Ok [2%nat].
Proof. reflexivity. Qed.

Example broadcast_3_2 : np_broadcast [[3%nat]; [2%nat]] = Raise shape_mismatch.
Proof. reflexivity. Qed.

(** [xy(from_origin(0, 10, 2, 2), [0, 1, 2], [0, 1])] raises
    [TransformError]. *)
Example xy_lengths_3_2 :
  fst (xy (gdal := no_engine F64.t)
         (TAffine (from_origin (of_int 0) (of_int 10) (of_int 2) (of_int 2)))
         (PyList [of_int 0; of_int 1; of_int 2]) (PyList [of_int 0; of_int 1])
         None "center" tt world0)
  = Raise (TransformError
             "shape mismatch: objects cannot be broadcast to a single shape").
Proof. vm_compute. reflexivity. Qed.

(** C2. [xy(T, [0, 1], [0])] does not raise: the one-item [cols] is
    broadcast against the two [rows], and the call returns the two points
    of [xy(T, [0, 1], [0, 0])].  (Arguments whose shapes do not broadcast,
    and arguments of more than one dimension, do raise [TransformError]:
    [ensure_arr_input_shape_mismatch], [ensure_arr_input_nested].) *)
Theorem C2_length_one_is_broadcast :
  forall (R : Type) (N : Number R) (gdal : GeodeticEngine R)
         (T : Affine.t R) (options : rpc_options) (w : world),
    let rows := PyList [of_int 0; of_int 1] in
    exists x0 x1 y0 y1,
      fst (xy (TAffine T) rows (PyList [of_int 0]) None "center" options w)
      = Ok (Sequences [x0; x1] [y0; y1]) /\
      fst (xy (TAffine T) rows (PyList [of_int 0; of_int 0]) None "center"
             options w)
      = Ok (Sequences [x0; x1] [y0; y1]).
Proof.
  intros R N gdal [a b c d e f] options w rows.
  rewrite !xy_affine. cbn [fst].
  do 4 eexists. split; reflexivity.
Qed.

(** ** Computations without effects *)

Lemma pure_ret {A : Type} (a : A) : pure (ret a).
Proof. now exists (Ok a). Qed.

Lemma pure_lift {A : Type} (r : result A) : pure (lift r).
Proof. now exists r. Qed.

Lemma pure_mbind {A B : Type} (m : M A) (k : A -> M B) :
  pure m -> (forall a, pure (k a)) -> pure (mbind m k).
Proof.
  intros [r Hm] Hk. unfold mbind. destruct r as [a|e].
  - destruct (Hk a) as [r' Hr']. exists r'. intros w. now rewrite Hm, Hr'.
  - exists (Raise e). intros w. now rewrite Hm.
Qed.

Section MethodRowcol.
Context {R : Type} `{Number R}.

(** Without [precision] the method [rowcol] has no effect. *)
Lemma rowcol_method_pure (t : Transformer R) xs ys zs op :
  pure (TransformerBase.rowcol t xs ys zs op None).
Proof.
  unfold TransformerBase.rowcol.
  apply pure_mbind; [apply pure_ret|intros _].
  apply pure_mbind; [apply pure_lift|intros [[p0 p1] p2]].
  apply pure_mbind; [apply pure_lift|intros [new_cols new_rows]].
  destruct (has_iter xs || has_iter ys || has_iter_opt zs).
  - destruct op.
    + apply pure_ret.
    + apply pure_mbind; [apply pure_lift|intros rows].
      apply pure_mbind; [apply pure_lift|intros cols]. apply pure_ret.
  - apply pure_mbind; [apply pure_lift|intros row].
    apply pure_mbind; [apply pure_lift|intros col]. apply pure_ret.
Qed.

(** With [precision] it warns once and goes on as without. *)
Lemma rowcol_method_precision (t : Transformer R) xs ys zs op p (w : world) :
  TransformerBase.rowcol t xs ys zs op (Some p) w =
  (fst (TransformerBase.rowcol t xs ys zs op None w),
   mkWorld (acquired w) (released w) (precision_warning :: warnings w)).
Proof.
  destruct (rowcol_method_pure t xs ys zs op) as [r Hr].
  rewrite (Hr w). cbn [fst].
  change (TransformerBase.rowcol t xs ys zs op (Some p) w)
    with (TransformerBase.rowcol t xs ys zs op None
            (mkWorld (acquired w) (released w) (precision_warning :: warnings w))).
  apply Hr.
Qed.

(** The reverse direction of a degenerate affine transformer. *)
Lemma rowcol_method_degenerate (T : Affine.t R) xs ys zs op (w : world) :
  Affine.is_degenerate T = true ->
  (exists msg,
      TransformerBase._ensure_arr_input xs ys zs = Raise (TransformError msg) /\
      TransformerBase.rowcol (AffineTransformer.new T) xs ys zs op None w
      = (Raise (TransformError msg), w)) \/
  (exists pts,
      TransformerBase._ensure_arr_input xs ys zs = Ok pts /\
      TransformerBase.rowcol (AffineTransformer.new T) xs ys zs op None w
      = (Raise TransformNotInvertibleError, w)).
Proof.
  intros D. unfold TransformerBase.rowcol.
  destruct (ensure_arr_input_cases xs ys zs)
    as [[msg E]|(p0 & p1 & p2 & E & L1 & L2)]; rewrite E.
  - left. exists msg. split; reflexivity.
  - right. exists (p0, p1, p2). split; [reflexivity|].
    unfold mbind, lift, ret. cbn [_transform AffineTransformer.new].
    now rewrite (affine_transform_reverse_degenerate T p0 p1 p2 D L1).
Qed.

End MethodRowcol.

(** C4 (amended).  An [AffineTransformer] is constructed from any
    [Affine], degenerate or not.  On a degenerate one [rowcol] never
    returns: it raises [TransformError] when the coordinates are refused,
    and otherwise [affine]'s [TransformNotInvertibleError], which [rowcol]
    does not turn into a [TransformError]. *)
Theorem C4_degenerate_reverse :
  forall (R : Type) (N : Number R) (gdal : GeodeticEngine R) (T : Affine.t R),
    Affine.is_degenerate T = true ->
    (forall w, construct (partial_AffineTransformer (TAffine T)) w
               = (Ok (an_AffineTransformer T), w)) /\
    forall xs ys zs op precision w,
      let outcome :=
        fst (TransformerBase.rowcol (AffineTransformer.new T)
               xs ys zs op precision w) in
      (exists msg,
          TransformerBase._ensure_arr_input xs ys zs = Raise (TransformError msg) /\
          outcome = Raise (TransformError msg)) \/
      (exists pts,
          TransformerBase._ensure_arr_input xs ys zs = Ok pts /\
          outcome = Raise TransformNotInvertibleError).
Proof.
  intros R N gdal T D. split; [reflexivity|].
  intros xs ys zs op precision w outcome. subst outcome.
  assert (E : fst (TransformerBase.rowcol (AffineTransformer.new T)
                     xs ys zs op precision w)
              = fst (TransformerBase.rowcol (AffineTransformer.new T)
                       xs ys zs op None w)).
  { destruct precision; [now rewrite rowcol_method_precision|reflexivity]. }
  rewrite E.
  destruct (rowcol_method_degenerate T xs ys zs op w D)
    as [(msg & E1 & E2)|(pts & E1 & E2)]; rewrite E2; cbn [fst]; eauto.
Qed.

Lemma C4_degenerate_reverse_witness :
  fst (TransformerBase.rowcol
         (AffineTransformer.new (Affine.scale (of_int 0) (of_int 0) : Affine.t Q))
         (PyNum (of_int 3)) (PyNum (of_int 4)) None
         TransformerBase.math_floor None world0)
  = Raise TransformNotInvertibleError.
Proof.
  assert (D : Affine.is_degenerate
                (Affine.scale (of_int 0) (of_int 0) : Affine.t Q) = true)
    by reflexivity.
  destruct (proj2 (C4_degenerate_reverse Q exact (no_engine Q)
                     (Affine.scale (of_int 0) (of_int 0)) D)
              (PyNum (of_int 3)) (PyNum (of_int 4)) None
              TransformerBase.math_floor None world0)
    as [(msg & E & _)|(pts & _ & E)].
  - discriminate E.
  - exact E.
Defined.

(** C4, as stated, fails: on the degenerate [Affine.scale(0, 0)] the call
    [rowcol(0, 0)] raises an exception that is no [TransformError]. *)
Lemma C4_counterexample :
  let T : Affine.t F64.t := Affine.scale (of_int 0) (of_int 0) in
  Affine.is_degenerate T = true /\
  ~ exists msg,
      fst (TransformerBase.rowcol (AffineTransformer.new T)
             (PyNum (of_int 0)) (PyNum (of_int 0)) None
             TransformerBase.math_floor None world0)
      = Raise (TransformError msg).
Proof.
  cbv zeta. split; [reflexivity|].
  intros [msg E]. vm_compute in E. discriminate E.
Qed.

(** ** Construction and scope of the transformers *)

Section Lifecycle.
Context {R : Type} `{Number R} {gdal : GeodeticEngine R}.

Lemma GCPTransformerBase_init_pure (gcps : pyobj R) (tps : bool) :
  pure (GCPTransformerBase_init gcps tps).
Proof.
  unfold GCPTransformerBase_init.
  destruct gcps as [| | | |[|g items]]; try apply pure_lift.
  destruct (all_gcps (g :: items)); [apply pure_ret|apply pure_lift].
Qed.

Lemma RPCTransformerBase_init_pure (rpcs : pyobj R) (options : rpc_options) :
  pure (RPCTransformerBase_init rpcs options).
Proof.
  unfold RPCTransformerBase_init.
  destruct rpcs as [r|keys| | |]; try apply pure_lift; try apply pure_ret.
  destruct (rpc_of_dict keys); [apply pure_ret|apply pure_lift].
Qed.

Lemma GCPTransformer_init_pure (gcps : pyobj R) (tps : bool) :
  pure (GCPTransformer.init gcps tps).
Proof.
  unfold GCPTransformer.init.
  apply pure_mbind; [apply pure_lift|intros n].
  apply pure_mbind.
  - destruct (n =? 0)%nat; [apply pure_ret|].
    apply pure_mbind; [apply pure_lift|intros g0; apply pure_ret].
  - intros [|]; [apply pure_lift|apply GCPTransformerBase_init_pure].
Qed.

Lemma RPCTransformer_init_pure (rpcs : pyobj R) (options : rpc_options) :
  pure (RPCTransformer.init rpcs options).
Proof.
  unfold RPCTransformer.init.
  destruct (negb (is_RPC_or_dict rpcs));
    [apply pure_lift|apply RPCTransformerBase_init_pure].
Qed.

(** Constructing a transformer acquires nothing. *)
Lemma construct_pure (cls : transformer_cls) : pure (construct cls).
Proof.
  destruct cls; cbn [construct].
  - apply pure_mbind; [apply pure_lift|intros; apply pure_ret].
  - apply pure_mbind; [apply RPCTransformer_init_pure|intros; apply pure_ret].
  - apply pure_mbind; [apply GCPTransformer_init_pure|intros; apply pure_ret].
Qed.

(** What a [with] block whose body has no effect does to the world: a
    GDAL transformer that was constructed is opened once and closed once,
    and no warning is issued. *)
Lemma with_transformer_world {A : Type} (cls : transformer_cls)
  (body : Transformer R -> M A) :
  (forall t, pure (body t)) ->
  exists (r : result A) (opened : bool), forall w,
    with_transformer cls body w =
    (r, if opened
        then mkWorld (S (acquired w)) (S (released w)) (warnings w)
        else w).
Proof.
  intros Hb. unfold with_transformer.
  destruct (construct_pure cls) as [[obj|e] Hc].
  - destruct (Hb (as_transformer obj)) as [r Hr].
    destruct obj as [T|m].
    + exists r, false. intros w. rewrite Hc. cbn [enter exit ret snd].
      now rewrite Hr.
    + exists r, true. intros w. rewrite Hc. cbn [enter exit acquire].
      now rewrite Hr.
  - exists (Raise e), false. intros w. now rewrite Hc.
Qed.

End Lifecycle.

(** C8. The [precision] argument of [rowcol] changes nothing in the
    result, for every transform and every input; when it is given, one
    deprecation warning is issued and the call goes on; when it is not,
    no warning is issued.  The same holds of the method [rowcol] of every
    transformer. *)
Theorem C8_precision_is_ignored :
  forall (R : Type) (N : Number R) (gdal : GeodeticEngine R)
         (transform : transform_arg R) (t : Transformer R)
         xs ys zs op (p : TransformerBase.pynum R) options (w : world),
    let with_p := rowcol transform xs ys zs op (Some p) options w in
    let without := rowcol transform xs ys zs op None options w in
    let m_with_p := TransformerBase.rowcol t xs ys zs op (Some p) w in
    let m_without := TransformerBase.rowcol t xs ys zs op None w in
    fst with_p = fst without /\
    warnings (snd without) = warnings w /\
    warnings (snd with_p) = precision_warning :: warnings w /\
    fst m_with_p = fst m_without /\
    warnings (snd m_without) = warnings w /\
    warnings (snd m_with_p) = precision_warning :: warnings w.
Proof.
  intros R N gdal transform t xs ys zs op p options w.
  cbv zeta.
  assert (F : exists (r : result (shaped (TransformerBase.pynum R)))
                     (opened : bool),
             forall w,
               rowcol transform xs ys zs op None options w =
               (r, if opened
                   then mkWorld (S (acquired w)) (S (released w)) (warnings w)
                   else w)).
  { unfold rowcol. destruct (get_transformer transform options) as [cls|e].
    - destruct (with_transformer_world cls
                  (fun t => TransformerBase.rowcol t xs ys zs op None)
                  (fun t => rowcol_method_pure t xs ys zs op))
        as (r & opened & Hr).
      exists r, opened. intros w'. apply Hr.
    - exists (Raise e), false. reflexivity. }
  destruct F as (r & opened & Hr).
  change (rowcol transform xs ys zs op (Some p) options w)
    with (rowcol transform xs ys zs op None options
            (mkWorld (acquired w) (released w) (precision_warning :: warnings w))).
  rewrite !Hr, rowcol_method_precision.
  destruct (rowcol_method_pure t xs ys zs op) as [r' Hr']. rewrite Hr'.
  destruct opened; cbn; repeat split; reflexivity.
Qed.

(** C3 (amended).  The guard of [GCPTransformer.__init__] hands an empty
    sequence to the base class; with the base classes as the
    specification describes them: constructing a GCP transformer from an
    empty sequence, or from a sequence whose first item is no
    [GroundControlPoint], and constructing an RPC transformer from an
    object that is neither an [RPC] nor a [dict], raise [ValueError] and
    leave the world as it was: nothing has been acquired. *)
Theorem C3_construction_errors :
  forall (R : Type) (N : Number R) (gdal : GeodeticEngine R)
         (tps : bool) (options : rpc_options) (w : world),
    GCPTransformer.init (ObjSequence []) tps w
    = GCPTransformerBase_init (ObjSequence []) tps w /\
    (exists msg,
        GCPTransformer.init (ObjSequence []) tps w = (Raise (ValueError msg), w)) /\
    (forall (o : pyobj R) (items : list (pyobj R)),
        is_GroundControlPoint o = false ->
        exists msg,
          GCPTransformer.init (ObjSequence (o :: items)) tps w
          = (Raise (ValueError msg), w)) /\
    (forall o : pyobj R,
        is_RPC_or_dict o = false ->
        exists msg,
          RPCTransformer.init o options w = (Raise (ValueError msg), w)).
Proof.
  intros R N gdal tps options w. split; [reflexivity|]. repeat split.
  - eexists. reflexivity.
  - intros o items G. eexists.
    unfold GCPTransformer.init, mbind, lift, ret.
    cbn [py_len py_getitem0 item0 List.length Nat.eqb]. rewrite G. reflexivity.
  - intros o G. eexists. unfold RPCTransformer.init. rewrite G. reflexivity.
Qed.

Lemma C3_construction_errors_witness :
  exists msg,
    GCPTransformer.init (gdal := no_engine Q)
      (ObjSequence [ObjNumber (of_int 1); ObjDict []]) false world0
    = (Raise (ValueError msg), world0).
Proof.
  apply (proj1 (proj2 (proj2 (C3_construction_errors Q exact (no_engine Q)
                                false tt world0)))).
  reflexivity.
Defined.

(** C3, as stated, fails: a number is neither a GCP sequence nor an RPC
    model, and constructing a GCP transformer from it raises a
    [TypeError], since it has no length. *)
Lemma C3_counterexample :
  ~ exists msg,
      fst (GCPTransformer.init (gdal := no_engine Q)
             (ObjNumber (of_int 5)) false world0)
      = Raise (ValueError msg).
Proof. intros [msg E]. discriminate E. Qed.

(** ** Shape of the results *)

Lemma except_TypeError_Ok {A : Type} (x : result A) (a : A) :
  except_TypeError x = Ok a -> x = Ok a.
Proof. destruct x as [|[]]; cbn; congruence. Qed.

Section Shaping.
Context {R : Type} `{Number R}.

Lemma mapM_ufunc (g : R -> R) (l : list R) :
  mapM (TransformerBase.call (TransformerBase.ufunc g)) l
  = Ok (map TransformerBase.PyFloat (map g l)).
Proof. induction l as [|x l IH]; cbn; [|rewrite IH]; reflexivity. Qed.

(** What a call of the method [xy] that returns has done. *)
Lemma xy_method_inv (t : Transformer R) rows cols zs offset
  (r : shaped R) :
  TransformerBase.xy t rows cols zs offset = Ok r ->
  exists offset_cols offset_rows pts2 new_xs new_ys,
    _transform t offset_cols offset_rows pts2 forward = Ok (new_xs, new_ys) /\
    ((has_iter rows = false /\ List.length new_xs = 1%nat /\
      exists x y, new_xs = [x] /\ item0 new_ys = Ok y /\ r = Scalars x y) \/
     ((has_iter rows = true \/ List.length new_xs <> 1%nat) /\
      r = Sequences new_xs new_ys)).
Proof.
  unfold TransformerBase.xy.
  destruct (TransformerBase._ensure_arr_input rows cols zs)
    as [[[p0 p1] p2]|]; [|discriminate].
  cbn [bind].
  destruct (TransformerBase.offset_fractions offset) as [[coff roff]|];
    [|discriminate].
  cbn [bind]. intros E. apply except_TypeError_Ok in E. revert E.
  destruct (_transform _ p1 p0 p2 forward) as [[oc or]|]; [|discriminate].
  cbn [bind].
  destruct (_transform t oc or p2 forward) as [[nx ny]|] eqn:Et; [|discriminate].
  cbn [bind]. intros E.
  exists oc, or, p2, nx, ny. split; [exact Et|].
  destruct (Nat.eqb_spec (List.length nx) 1) as [L|L];
    destruct (has_iter rows); cbn [andb negb] in E.
  - right. split; [auto|congruence].
  - left. destruct nx as [|x [|? ?]]; try discriminate L.
    cbn [item0 bind] in E.
    destruct (item0 ny) as [y|]; [|discriminate]. cbn [bind] in E.
    repeat split. exists x, y. repeat split. congruence.
  - right. split; [auto|congruence].
  - right. split; [auto|congruence].
Qed.

(** What a call of the method [rowcol] that returns has done. *)
Lemma rowcol_method_inv (t : Transformer R) xs ys zs op precision (w : world)
  (r : shaped (TransformerBase.pynum R)) :
  fst (TransformerBase.rowcol t xs ys zs op precision w) = Ok r ->
  exists p0 p1 p2 new_cols new_rows,
    TransformerBase._ensure_arr_input xs ys zs = Ok (p0, p1, p2) /\
    _transform t p0 p1 p2 reverse = Ok (new_cols, new_rows) /\
    ((has_iter xs || has_iter ys || has_iter_opt zs = false /\
      exists x y row col,
        item0 new_rows = Ok y /\ TransformerBase.call op y = Ok row /\
        item0 new_cols = Ok x /\ TransformerBase.call op x = Ok col /\
        r = Scalars row col) \/
     (has_iter xs || has_iter ys || has_iter_opt zs = true /\
      exists rows cols,
        mapM (TransformerBase.call op) new_rows = Ok rows /\
        mapM (TransformerBase.call op) new_cols = Ok cols /\
        r = Sequences rows cols)).
Proof.
  assert (E : fst (TransformerBase.rowcol t xs ys zs op precision w)
              = fst (TransformerBase.rowcol t xs ys zs op None w)).
  { destruct precision; [now rewrite rowcol_method_precision|reflexivity]. }
  rewrite E. clear E. unfold TransformerBase.rowcol, mbind, lift, ret.
  destruct (TransformerBase._ensure_arr_input xs ys zs)
    as [[[p0 p1] p2]|]; [|discriminate].
  destruct (_transform t p0 p1 p2 reverse) as [[nc nr]|] eqn:Et.
  2:{ destruct e; discriminate. }
  cbn [except_TypeError].
  intros E. exists p0, p1, p2, nc, nr.
  split; [reflexivity|]. split; [exact Et|]. revert E.
  destruct (has_iter xs || has_iter ys || has_iter_opt zs).
  - intros E. right. split; [reflexivity|]. revert E. destruct op as [g|g].
    + intros E. exists (map TransformerBase.PyFloat (map g nr)),
                       (map TransformerBase.PyFloat (map g nc)).
      rewrite !mapM_ufunc. cbn in E. repeat split. congruence.
    + destruct (mapM _ nr) as [rows|]; [|discriminate].
      destruct (mapM _ nc) as [cols|]; [|discriminate].
      intros E. exists rows, cols. cbn in E. repeat split. congruence.
  - intros E. left. split; [reflexivity|]. revert E.
    destruct (item0 nr) as [y|]; [|discriminate]. cbn [bind].
    destruct (TransformerBase.call op y) as [row|] eqn:Ey; [|discriminate].
    destruct (item0 nc) as [x|]; [|discriminate]. cbn [bind].
    destruct (TransformerBase.call op x) as [col|] eqn:Ex; [|discriminate].
    intros E. exists x, y, row, col. cbn in E. repeat split; congruence.
Qed.

End Shaping.

(** ** Bounds of an array *)

Section Bounds.
Context {R : Type} `{NumberLaws R}.
Local Open Scope num_scope.

Lemma array_bounds_axis_aligned (height width : R) (t : Affine.t R) :
  feqb (Affine.b t) zero = true -> feqb (Affine.d t) zero = true ->
  array_bounds height width t =
  (Affine.c t, Affine.f t + Affine.e t * height,
   Affine.c t + Affine.a t * width, Affine.f t).
Proof.
  destruct t as [a b c d e f]. cbn [Affine.a Affine.b Affine.c Affine.d Affine.e Affine.f].
  intros Hb Hd. unfold array_bounds.
  now rewrite (feqb_zeros b d Hb Hd), Hd.
Qed.

Lemma array_bounds_rotated (height width : R) (t : Affine.t R) :
  feqb (Affine.b t) zero = false \/ feqb (Affine.d t) zero = false ->
  array_bounds height width t =
  let c0 := (Affine.c t, Affine.f t) in
  let c1 := Affine.apply t (zero, height) in
  let c2 := Affine.apply t (width, height) in
  let c3 := Affine.apply t (width, zero) in
  (py_min (fst c0) [fst c1; fst c2; fst c3],
   py_min (snd c0) [snd c1; snd c2; snd c3],
   py_max (fst c0) [fst c1; fst c2; fst c3],
   py_max (snd c0) [snd c1; snd c2; snd c3]).
Proof.
  destruct t as [a b c d e f]. cbn [Affine.a Affine.b Affine.c Affine.d Affine.e Affine.f].
  intros Hbd. unfold array_bounds.
  destruct (feqb b d && feqb d zero) eqn:E; [|reflexivity].
  apply andb_prop in E as [Ebd Ed].
  pose proof (feqb_zero_l b d Ebd Ed) as Eb.
  unfold zero in *. destruct Hbd; congruence.
Qed.

End Bounds.

(** C10 (amended).  When [b] and [d] are both zero, [array_bounds]
    returns [(c, f + e*height, c + a*width, f)] as computed, without
    reordering, in any arithmetic; so, in exact arithmetic, when [a < 0]
    and [width > 0] the west returned exceeds the east, and when [e > 0]
    and [height > 0] the south exceeds the north.  When [b] or [d] is not
    zero, the bounds are the minima and maxima over the four corners. *)
Theorem C10_axis_aligned_bounds :
  (forall (R : Type) (N : Number R) (L : NumberLaws R)
          (height width : R) (t : Affine.t R),
      feqb (Affine.b t) zero = true -> feqb (Affine.d t) zero = true ->
      array_bounds height width t =
      (Affine.c t, fadd (Affine.f t) (fmul (Affine.e t) height),
       fadd (Affine.c t) (fmul (Affine.a t) width), Affine.f t)) /\
  (forall (height width : Q) (t : Affine.t Q),
      feqb (Affine.b t) zero = true -> feqb (Affine.d t) zero = true ->
      let '(west, south, east, north) := array_bounds height width t in
      (Affine.a t < 0 -> 0 < width -> east < west)%Q /\
      (0 < Affine.e t -> 0 < height -> north < south)%Q) /\
  (forall (R : Type) (N : Number R) (L : NumberLaws R)
          (height width : R) (t : Affine.t R),
      feqb (Affine.b t) zero = false \/ feqb (Affine.d t) zero = false ->
      array_bounds height width t =
      let c0 := (Affine.c t, Affine.f t) in
      let c1 := Affine.apply t (zero, height) in
      let c2 := Affine.apply t (width, height) in
      let c3 := Affine.apply t (width, zero) in
      (py_min (fst c0) [fst c1; fst c2; fst c3],
       py_min (snd c0) [snd c1; snd c2; snd c3],
       py_max (fst c0) [fst c1; fst c2; fst c3],
       py_max (snd c0) [snd c1; snd c2; snd c3])).
Proof.
  split; [|split].
  - intros R N L height width t. apply array_bounds_axis_aligned.
  - intros height width t Hb Hd.
    rewrite (array_bounds_axis_aligned height width t Hb Hd).
    cbn [fadd fmul exact]. split.
    + intros Ha Hw.
      assert (Affine.a t * width < 0)%Q.
      { setoid_replace 0%Q with (0 * width)%Q by ring.
        now apply Qmult_lt_compat_r. }
      setoid_replace (Affine.c t) with (Affine.c t + 0)%Q at 2 by ring.
      apply Qplus_lt_r. assumption.
    + intros He Hh.
      assert (0 < Affine.e t * height)%Q.
      { setoid_replace 0%Q with (0 * height)%Q by ring.
        now apply Qmult_lt_compat_r. }
      setoid_replace (Affine.f t) with (Affine.f t + 0)%Q at 1 by ring.
      apply Qplus_lt_r. assumption.
  - intros R N L height width t. apply array_bounds_rotated.
Qed.

Lemma C10_axis_aligned_bounds_witness :
  let t : Affine.t Q :=
    Affine.mk (of_int (-2)) zero (of_int 100) zero (of_int 3) (of_int 50) in
  array_bounds (of_int 4) (of_int 5) t
  = (of_int 100, (of_int 50 + of_int 3 * of_int 4)%Q,
     (of_int 100 + of_int (-2) * of_int 5)%Q, of_int 50) /\
  (let '(west, south, east, north) := array_bounds (of_int 4) (of_int 5) t in
   (Affine.a t < 0 -> 0 < of_int 5 -> east < west)%Q /\
   (0 < Affine.e t -> 0 < of_int 4 -> north < south)%Q).
Proof.
  cbv zeta. split.
  - apply (proj1 C10_axis_aligned_bounds Q exact exact_laws); reflexivity.
  - apply (proj1 (proj2 C10_axis_aligned_bounds)); reflexivity.
Defined.

(** C10, as stated, fails where [a * width] does not move [c]: for an
    array of width 0, and, in binary64, when the product is absorbed by
    rounding ([c] is 2^54, [a * width] is -1); the west returned then
    equals the east although [a < 0]. *)
Lemma C10_counterexample :
  let t0 : Affine.t F64.t :=
    Affine.mk (of_int (-1)) zero (of_int 5) zero (of_int (-1)) zero in
  let t1 : Affine.t F64.t :=
    Affine.mk (of_int (-1)) zero (of_int 18014398509481984) zero
      (of_int (-1)) zero in
  (fltb (Affine.a t0) zero = true /\
   let '(west, south, east, north) := array_bounds (of_int 2) (of_int 0) t0 in
   fltb east west = false) /\
  (fltb (Affine.a t1) zero = true /\
   let '(west, south, east, north) := array_bounds (of_int 2) (of_int 1) t1 in
   fltb east west = false).
Proof. vm_compute. repeat split. Qed.

(** ** The round trip through [xy] and [rowcol] *)

Section RoundTrip.
Context {R : Type} `{Number R}.
Local Open Scope num_scope.

(** The inverse of a transform that is not degenerate. *)
Lemma invert_not_degenerate (T : Affine.t R) :
  Affine.is_degenerate T = false ->
  Affine.invert T =
  let idet := fdiv one (Affine.determinant T) in
  let ra := Affine.e T * idet in
  let rb := - Affine.b T * idet in
  let rd := - Affine.d T * idet in
  let re := Affine.a T * idet in
  Ok (Affine.mk ra rb (- Affine.c T * ra - Affine.f T * rb)
                rd re (- Affine.c T * rd - Affine.f T * re)).
Proof.
  intros D. unfold Affine.invert, truediv. rewrite D.
  unfold Affine.is_degenerate in D. rewrite D. now destruct T.
Qed.

(** [xy] of one pixel, at its upper left corner. *)
Lemma xy_scalar_ul (T : Affine.t R) (row col : R) :
  TransformerBase.xy (AffineTransformer.new T) (PyNum row) (PyNum col) None "ul"
  = let c' := one * col + zero * row + zero * one in
    let r' := zero * col + one * row + zero * one in
    Ok (Scalars (Affine.a T * c' + Affine.b T * r' + Affine.c T * one)
                (Affine.d T * c' + Affine.e T * r' + Affine.f T * one)).
Proof. now destruct T. Qed.

(** [rowcol] of one point. *)
Lemma rowcol_scalar (T T' : Affine.t R) (x y : R) op (w : world) :
  Affine.invert T = Ok T' ->
  TransformerBase.rowcol (AffineTransformer.new T) (PyNum x) (PyNum y) None op None w
  = (bind (TransformerBase.call op
             (Affine.d T' * x + Affine.e T' * y + Affine.f T' * one))
       (fun row =>
          bind (TransformerBase.call op
                  (Affine.a T' * x + Affine.b T' * y + Affine.c T' * one))
            (fun col => Ok (Scalars row col))), w).
Proof.
  intros I. unfold TransformerBase.rowcol, mbind, lift, ret.
  cbn -[Affine.invert]. rewrite I. destruct T' as [a' b' c' d' e' f'].
  cbn. destruct (TransformerBase.call op _); [|reflexivity].
  cbn. destruct (TransformerBase.call op _); reflexivity.
Qed.

End RoundTrip.

(** Exact arithmetic: a rational equal to an integer has it as floor. *)
Lemma Qfloor_eq_Z (q : Q) (z : Z) : (q == inject_Z z)%Q -> Qfloor q = z.
Proof. intros E. rewrite (Qfloor_comp _ _ E). apply Qfloor_Z. Qed.

(** C1 (amended).  In exact arithmetic, for every affine transform that
    is not degenerate and every integer pair [(row, col)]: [xy] with
    offset ["ul"] returns a point [(x, y)], and [rowcol] of that point
    with [op = math.floor] returns [(row, col)], as integers. *)
Theorem C1_roundtrip_exact :
  forall (gdal : GeodeticEngine Q) (T : Affine.t Q) (row col : Z)
         (options : rpc_options) (w : world),
    Affine.is_degenerate T = false ->
    exists x y : Q,
      fst (xy (TAffine T) (PyNum (of_int row)) (PyNum (of_int col)) None "ul"
             options w)
      = Ok (Scalars x y) /\
      fst (rowcol (TAffine T) (PyNum x) (PyNum y) None
             TransformerBase.math_floor None options w)
      = Ok (Scalars (TransformerBase.PyInt row) (TransformerBase.PyInt col)).
Proof.
  intros gdal T row col options w D.
  rewrite xy_affine, xy_scalar_ul. cbv zeta. cbn [fst].
  do 2 eexists. split; [reflexivity|].
  rewrite rowcol_affine.
  erewrite rowcol_scalar by (apply invert_not_degenerate; exact D).
  assert (Dne : ~ (Affine.determinant T == 0)%Q).
  { intros E. apply Qeq_bool_iff in E.
    change (Qeq_bool (Affine.determinant T) 0 = false) in D. congruence. }
  destruct T as [a b c d e f].
  cbn [fst Affine.a Affine.b Affine.c Affine.d Affine.e Affine.f
         TransformerBase.call TransformerBase.math_floor bind
         ffloor exact Exact.floor].
  unfold Affine.determinant in *.
  cbn [Affine.a Affine.b Affine.c Affine.d Affine.e Affine.f
         fadd fsub fmul fneg fdiv of_int exact] in *.
  unfold zero, one. cbn [of_int exact].
  rewrite (Qfloor_eq_Z _ row), (Qfloor_eq_Z _ col); [reflexivity| |].
  - change (inject_Z 0) with 0%Q. change (inject_Z 1) with 1%Q. field. exact Dne.
  - change (inject_Z 0) with 0%Q. change (inject_Z 1) with 1%Q. field. exact Dne.
Qed.

Lemma C1_roundtrip_exact_witness :
  exists x y : Q,
    fst (xy (gdal := no_engine Q)
           (TAffine (from_origin (of_int 0) (of_int 0) (of_int 49) (of_int 1)))
           (PyNum (of_int 0)) (PyNum (of_int 1)) None "ul" tt world0)
    = Ok (Scalars x y) /\
    fst (rowcol (gdal := no_engine Q)
           (TAffine (from_origin (of_int 0) (of_int 0) (of_int 49) (of_int 1)))
           (PyNum x) (PyNum y) None TransformerBase.math_floor None tt world0)
    = Ok (Scalars (TransformerBase.PyInt 0) (TransformerBase.PyInt 1)).
Proof.
  apply (C1_roundtrip_exact (no_engine Q)). reflexivity.
Defined.

(** In binary64 the inverse of 49 times 49 is not 1. *)
Example binary64_49 :
  fmul (of_int 49) (fdiv (of_int 1) (of_int 49) : F64.t)
  = S754_finite false 9007199254740991 (-53) /\
  ffloor (fmul (of_int 49) (fdiv (of_int 1) (of_int 49) : F64.t)) = Ok 0%Z.
Proof. split; vm_compute; reflexivity. Qed.

(** C1, as stated, fails in binary64, the arithmetic of the code: the
    transform [from_origin(0, 0, 49, 1)] is not degenerate, and from
    [(row, col) = (0, 1)] the round trip does not come back to [(0, 1)]
    ([xy] gives [(49.0, 0.0)], whose column is
    [49.0 * (1 / 49.0) = 0.9999999999999999], of floor 0). *)
Lemma C1_counterexample :
  let T : Affine.t F64.t :=
    from_origin (of_int 0) (of_int 0) (of_int 49) (of_int 1) in
  Affine.is_degenerate T = false /\
  ~ exists x y : F64.t,
      fst (xy (gdal := no_engine F64.t) (TAffine T)
             (PyNum (of_int 0)) (PyNum (of_int 1)) None "ul" tt world0)
      = Ok (Scalars x y) /\
      fst (rowcol (gdal := no_engine F64.t) (TAffine T)
             (PyNum x) (PyNum y) None TransformerBase.math_floor None tt world0)
      = Ok (Scalars (TransformerBase.PyInt 0) (TransformerBase.PyInt 1)).
Proof.
  cbv zeta. split; [reflexivity|].
  intros (x & y & Exy & Erc).
  vm_compute in Exy. injection Exy as <- <-.
  vm_compute in Erc. discriminate Erc.
Qed.

(* ================================================================= *)
(** * Further properties of the module *)

(** ** [_ensure_arr_input] *)

Lemma broadcast_shapes_nil_r (s : list nat) : broadcast_shapes s [] = Some s.
Proof.
  unfold broadcast_shapes. cbn [rev].
  assert (E : forall r, broadcast_rev r [] = Some r) by (now intros [|? ?]).
  rewrite E. cbn. now rewrite rev_involutive.
Qed.

Section EnsureArrInputMore.
Context {R : Type} `{Number R}.

Lemma np_setrow_inv (n : nat) (v : pyval R) (l : list R) :
  np_setrow n v = Ok l ->
  v = PyList l \/
  exists x, (v = PyNum x \/ v = PyList [x]) /\ l = repeat x n.
Proof.
  destruct v as [x|l'|]; cbn.
  - intros [= <-]. right. exists x. auto.
  - destruct (List.length l' =? n)%nat.
    + intros [= <-]. now left.
    + destruct l' as [|x [|? ?]]; try discriminate.
      intros [= <-]. right. exists x. auto.
  - discriminate.
Qed.

(** What [_ensure_arr_input] has done when it returns. *)
Lemma ensure_arr_input_inv (xs ys : pyval R) (zs : option (pyval R))
  (p0 p1 p2 : list R) :
  TransformerBase._ensure_arr_input xs ys zs = Ok (p0, p1, p2) ->
  exists n,
    np_setrow n (np_atleast_1d xs) = Ok p0 /\
    np_setrow n ys = Ok p1 /\
    match zs with
    | Some z => np_setrow n z = Ok p2
    | None => p2 = repeat zero n
    end.
Proof.
  unfold TransformerBase._ensure_arr_input.
  destruct (except_ValueError _) as [b|]; [|discriminate].
  cbn [bind]. destruct (negb _); [discriminate|].
  destruct (np_setrow (np_size b) (np_atleast_1d xs)) as [q0|] eqn:E0;
    [|discriminate].
  cbn [bind].
  destruct (np_setrow (np_size b) ys) as [q1|] eqn:E1; [|discriminate].
  cbn [bind]. destruct zs as [z|].
  - destruct (np_setrow (np_size b) z) as [q2|] eqn:E2; [|discriminate].
    cbn [bind]. intros [= <- <- <-]. exists (np_size b). auto.
  - cbn [bind]. intros [= <- <- <-]. exists (np_size b). auto.
Qed.

End EnsureArrInputMore.

(** X1. On coordinate arguments that are floats, flat sequences of
    floats or arrays of two or more dimensions (the values of [pyval];
    ragged sequences and ints beyond the range of the doubles, on which
    numpy raises errors of its own, are not among them),
    [_ensure_arr_input] either returns three arrays of one common length
    or raises [TransformError]. *)
Theorem X1_ensure_arr_input_outcome :
  forall (R : Type) (N : Number R) (xs ys : pyval R) (zs : option (pyval R)),
    match TransformerBase._ensure_arr_input xs ys zs with
    | Ok (pts0, pts1, pts2) =>
        List.length pts1 = List.length pts0 /\
        List.length pts2 = List.length pts0
    | Raise e => is_TransformError e = true
    end.
Proof.
  intros R N xs ys zs.
  destruct (ensure_arr_input_cases xs ys zs)
    as [[msg ->]|(p0 & p1 & p2 & -> & L)]; [reflexivity|exact L].
Qed.

(** X2. Broadcasting keeps the values and their order: each array
    returned by [_ensure_arr_input] is the argument itself, item for
    item, or the single item of the argument repeated to the common
    length; without [zs] the third array is all zeros. *)
Theorem X2_ensure_arr_input_values :
  forall (R : Type) (N : Number R) (xs ys : pyval R) (zs : option (pyval R))
         (pts0 pts1 pts2 : list R),
    TransformerBase._ensure_arr_input xs ys zs = Ok (pts0, pts1, pts2) ->
    let n := List.length pts0 in
    let stretched (v : pyval R) (l : list R) :=
      v = PyList l \/
      exists x, (v = PyNum x \/ v = PyList [x]) /\ l = repeat x n in
    stretched xs pts0 /\ stretched ys pts1 /\
    match zs with
    | Some z => stretched z pts2
    | None => pts2 = repeat zero n
    end.
Proof.
  intros R N xs ys zs p0 p1 p2 E. cbv zeta.
  destruct (ensure_arr_input_inv _ _ _ _ _ _ E) as (m & E0 & E1 & E2).
  pose proof (np_setrow_length _ _ _ E0) as Hm. rewrite Hm. clear E.
  split; [|split].
  - apply np_setrow_inv in E0 as [E0|(x & [E0|E0] & E0')].
    + destruct xs as [x|l|]; cbn in E0; try discriminate.
      * injection E0 as <-. cbn in Hm. subst m. right. exists x. auto.
      * injection E0 as <-. now left.
    + destruct xs; discriminate.
    + destruct xs as [y|l|]; cbn in E0; try discriminate.
      * injection E0 as ->. right. exists x. auto.
      * injection E0 as ->. right. exists x. auto.
  - apply np_setrow_inv in E1. exact E1.
  - destruct zs as [z|]; [apply np_setrow_inv in E2|]; exact E2.
Qed.

Lemma X2_ensure_arr_input_values_witness :
  let n := 3%nat in
  let stretched (v : pyval Q) (l : list Q) :=
    v = PyList l \/
    exists x, (v = PyNum x \/ v = PyList [x]) /\ l = repeat x n in
  stretched (PyList [1; 2; 3]%Q) [1; 2; 3]%Q /\
  stretched (PyNum 7%Q) [7; 7; 7]%Q /\
  [0; 0; 0]%Q = repeat zero n.
Proof.
  exact (X2_ensure_arr_input_values Q exact
           (PyList [1; 2; 3]%Q) (PyNum 7%Q) None
           [1; 2; 3]%Q [7; 7; 7]%Q [0; 0; 0]%Q eq_refl).
Defined.

(** ** [xy] and [rowcol] on an affine transform *)

Section AffineXY.
Context {R : Type} `{Number R}.
Local Open Scope num_scope.

Lemma ensure_arr_input_lengths (xs ys : pyval R) (zs : option (pyval R))
  (p0 p1 p2 : list R) :
  TransformerBase._ensure_arr_input xs ys zs = Ok (p0, p1, p2) ->
  List.length p1 = List.length p0 /\ List.length p2 = List.length p0.
Proof.
  intros E.
  destruct (ensure_arr_input_cases xs ys zs)
    as [[msg E']|(q0 & q1 & q2 & E' & L)]; rewrite E in E'.
  - discriminate.
  - now injection E' as <- <- <-.
Qed.

Lemma affine_points_length (T : Affine.t R) (xs ys : list R) :
  List.length ys = List.length xs ->
  List.length (fst (affine_points T xs ys)) = List.length xs /\
  List.length (snd (affine_points T xs ys)) = List.length xs.
Proof.
  intros L. unfold affine_points. cbn [fst snd].
  split; apply matmul_row_length; auto using repeat_length.
Qed.

Lemma affine_transform_points (T : Affine.t R) (xs ys zs : list R) :
  List.length ys = List.length xs ->
  AffineTransformer._transform T xs ys zs forward = Ok (affine_points T xs ys).
Proof. apply affine_transform_forward. Qed.

(** The method [xy] of an affine transformer, once the coordinates are
    validated and the offset is resolved. *)
Lemma xy_method_affine (T : Affine.t R) rows cols zs offset
  (p0 p1 p2 : list R) (coff roff : R) :
  TransformerBase._ensure_arr_input rows cols zs = Ok (p0, p1, p2) ->
  TransformerBase.offset_fractions offset = Ok (coff, roff) ->
  TransformerBase.xy (AffineTransformer.new T) rows cols zs offset =
  let shifted := affine_points (Affine.translation coff roff) p1 p0 in
  let new := affine_points T (fst shifted) (snd shifted) in
  if (List.length (fst new) =? 1)%nat && negb (has_iter rows)
  then bind (item0 (fst new))
         (fun x => bind (item0 (snd new)) (fun y => Ok (Scalars x y)))
  else Ok (Sequences (fst new) (snd new)).
Proof.
  intros E O. destruct (ensure_arr_input_lengths _ _ _ _ _ _ E) as [L1 L2].
  unfold TransformerBase.xy. rewrite E, O. cbn [bind].
  cbn [_transform AffineTransformer.new].
  rewrite affine_transform_points by congruence.
  destruct (affine_points_length (Affine.translation coff roff) p1 p0)
    as [Lc Lr]; [congruence|].
  destruct (affine_points (Affine.translation coff roff) p1 p0) as [oc or].
  cbn [fst snd] in *. cbn [bind].
  rewrite affine_transform_points by congruence.
  destruct (affine_points_length T oc or) as [Lx Ly]; [congruence|].
  destruct (affine_points T oc or) as [nx ny].
  cbn [fst snd bind] in *. cbv zeta.
  destruct ((List.length nx =? 1)%nat && negb (has_iter rows)) eqn:C;
    [|reflexivity].
  apply andb_prop in C as [C _]. apply Nat.eqb_eq in C.
  destruct nx as [|x [|? ?]]; try discriminate C.
  destruct ny as [|y ?]; [cbn in Ly, Lx; lia|]. reflexivity.
Qed.

Lemma nth_matmul_row (p q r : R) (xs ys : list R) (i : nat) (x y : R) :
  List.length ys = List.length xs ->
  nth_error xs i = Some x -> nth_error ys i = Some y ->
  nth_error (matmul_row p q r xs ys (repeat one (List.length xs))) i
  = Some (p * x + q * y + r * one).
Proof.
  revert ys i. induction xs as [|x0 xs IH]; intros [|y0 ys] [|i] L;
    cbn; try discriminate.
  - now intros [= ->] [= ->].
  - injection L as L. apply IH. exact L.
Qed.

Lemma ensure_arr_input_lists (rows cols : list R) :
  List.length cols = List.length rows ->
  TransformerBase._ensure_arr_input (PyList rows) (PyList cols) None
  = Ok (rows, cols, repeat zero (List.length rows)).
Proof.
  intros L. unfold TransformerBase._ensure_arr_input, np_broadcast.
  cbn [np_atleast_1d np_shape np_broadcast_from].
  rewrite broadcast_shapes_nil_l, L.
  unfold broadcast_shapes. cbn [rev app broadcast_rev].
  rewrite Nat.eqb_refl. cbn [option_map rev app except_ValueError bind
                               List.length Nat.eqb negb].
  rewrite np_size_1d. cbn [np_setrow]. rewrite L, !Nat.eqb_refl. reflexivity.
Qed.

Lemma ensure_arr_input_scalars (x y : R) :
  TransformerBase._ensure_arr_input (PyNum x) (PyNum y) None
  = Ok ([x], [y], [zero]).
Proof. reflexivity. Qed.

End AffineXY.

(** X3. In exact arithmetic, [xy] of two sequences of the same length
    returns, for every affine transform and every valid offset, two
    sequences of that length whose items are, position by position, what
    [xy] returns for the single pixel: the batch is the pointwise
    computation.  (In binary64 the kernels of [np.matmul] for one column
    and for several may round differently.) *)
Theorem X3_xy_batch_is_pointwise :
  forall (gdal : GeodeticEngine Q) (T : Affine.t Q) (rows cols : list Q)
         offset (options : rpc_options) (w : world),
    List.length cols = List.length rows ->
    In offset ["center"; "ul"; "ur"; "ll"; "lr"]%string ->
    exists xs ys,
      fst (xy (TAffine T) (PyList rows) (PyList cols) None offset options w)
      = Ok (Sequences xs ys) /\
      List.length xs = List.length rows /\
      List.length ys = List.length rows /\
      forall i row col,
        nth_error rows i = Some row -> nth_error cols i = Some col ->
        exists x y x' y' : Q,
          nth_error xs i = Some x /\ nth_error ys i = Some y /\
          fst (xy (TAffine T) (PyNum row) (PyNum col) None offset options w)
          = Ok (Scalars x' y') /\
          (x == x')%Q /\ (y == y')%Q.
Proof.
  intros gdal T rows cols offset options w L I.
  assert (O : exists coff roff,
             TransformerBase.offset_fractions (R:=Q) offset = Ok (coff, roff)).
  { cbn in I. destruct I as [<-|[<-|[<-|[<-|[<-|[]]]]]];
      do 2 eexists; reflexivity. }
  destruct O as (coff & roff & O).
  rewrite xy_affine. cbn [fst].
  rewrite (xy_method_affine T _ _ _ _ _ _ _ coff roff
             (ensure_arr_input_lists rows cols L) O).
  cbv zeta. cbn [has_iter negb]. rewrite andb_false_r.
  destruct (affine_points_length (Affine.translation coff roff) cols rows)
    as [Lc Lr]; [congruence|].
  destruct (affine_points_length T
              (fst (affine_points (Affine.translation coff roff) cols rows))
              (snd (affine_points (Affine.translation coff roff) cols rows)))
    as [Lx Ly]; [congruence|].
  do 2 eexists. split; [reflexivity|].
  split; [congruence|]. split; [congruence|].
  intros i row col Hr Hc.
  rewrite xy_affine. cbn [fst].
  rewrite (xy_method_affine T _ _ _ _ _ _ _ coff roff
             (ensure_arr_input_scalars row col) O).
  cbv zeta. cbn [has_iter negb].
  unfold affine_points at 1 3. cbn [fst snd].
  unfold affine_points in Lc, Lr |- *. cbn [fst snd] in Lc, Lr |- *.
  cbn [Affine.a Affine.b Affine.c Affine.d Affine.e Affine.f Affine.translation]
    in *.
  assert (Hoc := nth_matmul_row one zero coff cols rows i col row
                   (eq_sym L) Hc Hr).
  assert (Hor := nth_matmul_row zero one roff cols rows i col row
                   (eq_sym L) Hc Hr).
  do 4 eexists. split; [|split; [|split; [|split]]].
  - apply nth_matmul_row; [congruence|exact Hoc|exact Hor].
  - apply nth_matmul_row; [congruence|exact Hoc|exact Hor].
  - reflexivity.
  - reflexivity.
  - reflexivity.
Qed.

Lemma X3_xy_batch_is_pointwise_witness :
  exists xs ys : list Q,
    fst (xy (gdal := no_engine Q) (TAffine (from_origin 0 10 2 2))
           (PyList [0; 1]%Q) (PyList [3; 4]%Q) None "center" tt world0)
    = Ok (Sequences xs ys) /\
    List.length xs = 2%nat.
Proof.
  destruct (X3_xy_batch_is_pointwise (no_engine Q) (from_origin 0 10 2 2)
              [0; 1]%Q [3; 4]%Q "center" tt world0
              eq_refl (or_introl eq_refl))
    as (xs & ys & E & Lx & _).
  exists xs, ys. split; [exact E|exact Lx].
Defined.

Section Broadcasting.
Context {R : Type} `{Number R}.

Lemma ensure_arr_input_list_scalar (xs : list R) (y : R) :
  TransformerBase._ensure_arr_input (PyList xs) (PyNum y) None
  = TransformerBase._ensure_arr_input
      (PyList xs) (PyList (repeat y (List.length xs))) None.
Proof.
  rewrite ensure_arr_input_lists by apply repeat_length.
  unfold TransformerBase._ensure_arr_input, np_broadcast.
  cbn [np_atleast_1d np_shape np_broadcast_from].
  rewrite broadcast_shapes_nil_l, broadcast_shapes_nil_r.
  cbn [except_ValueError bind List.length Nat.eqb negb].
  rewrite np_size_1d. cbn [np_setrow]. now rewrite Nat.eqb_refl.
Qed.

Lemma ensure_arr_input_scalar_list (x : R) (ys : list R) :
  TransformerBase._ensure_arr_input (PyNum x) (PyList ys) None
  = TransformerBase._ensure_arr_input
      (PyList (repeat x (List.length ys))) (PyList ys) None.
Proof.
  rewrite ensure_arr_input_lists by (symmetry; apply repeat_length).
  rewrite repeat_length.
  unfold TransformerBase._ensure_arr_input, np_broadcast.
  cbn [np_atleast_1d np_shape np_broadcast_from List.length].
  rewrite broadcast_shapes_nil_l.
  unfold broadcast_shapes. cbn [rev app broadcast_rev].
  destruct (Nat.eqb_spec 1 (List.length ys)) as [E|E].
  - rewrite <- E.
    cbn [option_map rev app except_ValueError bind List.length Nat.eqb negb].
    rewrite np_size_1d. cbn [np_setrow List.length Nat.eqb].
    destruct ys as [|y [|? ?]]; try discriminate E. reflexivity.
  - cbn [Nat.eqb option_map rev app except_ValueError bind List.length negb].
    rewrite np_size_1d. cbn [np_setrow List.length].
    destruct (Nat.eqb_spec 1 (List.length ys)) as [E'|_]; [contradiction|].
    now rewrite Nat.eqb_refl.
Qed.

(** With a scalar [zs] the first two arrays are those without [zs]. *)
Lemma ensure_arr_input_zs_scalar (xs ys : pyval R) (z : R) :
  TransformerBase._ensure_arr_input xs ys (Some (PyNum z))
  = match TransformerBase._ensure_arr_input xs ys None with
    | Ok (p0, p1, p2) => Ok (p0, p1, repeat z (List.length p2))
    | Raise e => Raise e
    end.
Proof.
  unfold TransformerBase._ensure_arr_input, np_broadcast.
  cbn [np_broadcast_from np_shape]. rewrite broadcast_shapes_nil_l.
  destruct (broadcast_shapes (np_shape (np_atleast_1d xs)) (np_shape ys))
    as [s|]; [|reflexivity].
  rewrite broadcast_shapes_nil_r. cbn [except_ValueError bind].
  destruct (negb (List.length s =? 1)%nat); [reflexivity|].
  destruct (np_setrow (np_size s) (np_atleast_1d xs)); [|reflexivity].
  cbn [bind]. destruct (np_setrow (np_size s) ys); [|reflexivity].
  cbn [bind np_setrow]. now rewrite repeat_length.
Qed.

End Broadcasting.

(** X4. A scalar argument beside a sequence is the sequence repeating it:
    for every transformer, [xy(rows, col)] is [xy(rows, [col, ..., col])],
    and [rowcol(xs, y)] and [rowcol(x, ys)] are [rowcol] of the repeated
    scalar. *)
Theorem X4_scalar_is_repeated :
  forall (R : Type) (N : Number R) (t : Transformer R)
         (l : list R) (s : R) offset op precision (w : world),
    let n := List.length l in
    TransformerBase.xy t (PyList l) (PyNum s) None offset
    = TransformerBase.xy t (PyList l) (PyList (repeat s n)) None offset /\
    TransformerBase.rowcol t (PyList l) (PyNum s) None op precision w
    = TransformerBase.rowcol t (PyList l) (PyList (repeat s n)) None
        op precision w /\
    TransformerBase.rowcol t (PyNum s) (PyList l) None op precision w
    = TransformerBase.rowcol t (PyList (repeat s n)) (PyList l) None
        op precision w.
Proof.
  intros R N t l s offset op precision w n. subst n.
  unfold TransformerBase.xy, TransformerBase.rowcol.
  rewrite ensure_arr_input_list_scalar, ensure_arr_input_scalar_list.
  repeat split.
Qed.

(** X5. An affine transform ignores a scalar [zs]: [xy] and [rowcol]
    return with it what they return without it. *)
Theorem X5_affine_ignores_zs :
  forall (R : Type) (N : Number R) (gdal : GeodeticEngine R)
         (T : Affine.t R) (u v : pyval R) (z : R)
         offset op precision options (w : world),
    xy (TAffine T) u v (Some (PyNum z)) offset options w
    = xy (TAffine T) u v None offset options w /\
    rowcol (TAffine T) u v (Some (PyNum z)) op precision options w
    = rowcol (TAffine T) u v None op precision options w.
Proof.
  intros R N gdal T u v z offset op precision options w. split.
  - rewrite !xy_affine. f_equal.
    unfold TransformerBase.xy. rewrite ensure_arr_input_zs_scalar.
    destruct (TransformerBase._ensure_arr_input u v None)
      as [[[p0 p1] p2]|]; reflexivity.
  - assert (E : forall w',
               TransformerBase.rowcol (AffineTransformer.new T) u v
                 (Some (PyNum z)) op None w'
               = TransformerBase.rowcol (AffineTransformer.new T) u v
                   None op None w').
    { intros w'. unfold TransformerBase.rowcol, mbind, lift, ret.
      rewrite ensure_arr_input_zs_scalar.
      cbn [has_iter_opt has_iter]. rewrite orb_false_r.
      destruct (TransformerBase._ensure_arr_input u v None)
        as [[[p0 p1] p2]|]; reflexivity. }
    destruct precision as [p|].
    + change (rowcol (TAffine T) u v (Some (PyNum z)) op (Some p) options w)
        with (rowcol (TAffine T) u v (Some (PyNum z)) op None options
                (mkWorld (acquired w) (released w)
                   (precision_warning :: warnings w))).
      change (rowcol (TAffine T) u v None op (Some p) options w)
        with (rowcol (TAffine T) u v None op None options
                (mkWorld (acquired w) (released w)
                   (precision_warning :: warnings w))).
      rewrite !rowcol_affine. apply E.
    + rewrite !rowcol_affine. apply E.
Qed.

Section UfuncPath.
Context {R : Type} `{Number R}.

Lemma mapM_callable_float (g : R -> R) (l : list R) :
  mapM (TransformerBase.call
          (TransformerBase.callable
             (fun x => Ok (TransformerBase.PyFloat (g x))))) l
  = Ok (map TransformerBase.PyFloat (map g l)).
Proof. induction l as [|x l IH]; cbn; [|cbn in IH; rewrite IH]; reflexivity. Qed.

End UfuncPath.

(** X6. The two branches of [rowcol] for [op] agree: with a ufunc [g],
    applied to the whole arrays, [rowcol] returns what it returns with
    the plain callable that applies [g] to one number and returns the
    float, applied item by item. *)
Theorem X6_ufunc_branch_agrees :
  forall (R : Type) (N : Number R) (t : Transformer R)
         xs ys zs (g : R -> R) precision (w : world),
    TransformerBase.rowcol t xs ys zs (TransformerBase.ufunc g) precision w
    = TransformerBase.rowcol t xs ys zs
        (TransformerBase.callable
           (fun x => Ok (TransformerBase.PyFloat (g x)))) precision w.
Proof.
  intros R N t xs ys zs g precision w.
  unfold TransformerBase.rowcol, mbind, lift, ret.
  destruct precision; cbn [warn];
    (destruct (TransformerBase._ensure_arr_input xs ys zs)
       as [[[p0 p1] p2]|]; [|reflexivity];
     destruct (except_TypeError (_transform t p0 p1 p2 reverse))
       as [[nc nr]|]; [|reflexivity];
     destruct (has_iter xs || has_iter ys || has_iter_opt zs);
     [rewrite !mapM_callable_float; reflexivity|];
     destruct (item0 nr); [|reflexivity];
     destruct (item0 nc); reflexivity).
Qed.

Section XYOutcome.
Context {R : Type} `{Number R}.


Lemma offset_fractions_of_valid (offset : string) :
  In offset ["center"; "ul"; "ur"; "ll"; "lr"]%string ->
  exists fr : R * R, TransformerBase.offset_fractions offset = Ok fr.
Proof.
  cbn. intros [<-|[<-|[<-|[<-|[<-|[]]]]]]; eexists; reflexivity.
Qed.


End XYOutcome.


(** X9. Empty input is no error: for every affine transform and valid
    offset, [xy] of an empty sequence of rows, with an empty sequence or
    a scalar as [cols], returns two empty sequences; and so does [rowcol]
    when the transform can be inverted, without calling [op]. *)
Theorem X9_empty_input :
  forall (R : Type) (N : Number R) (gdal : GeodeticEngine R)
         (T : Affine.t R) (s : R) offset op options (w : world),
    In offset ["center"; "ul"; "ur"; "ll"; "lr"]%string ->
    fst (xy (TAffine T) (PyList []) (PyList []) None offset options w)
    = Ok (Sequences [] []) /\
    fst (xy (TAffine T) (PyList []) (PyNum s) None offset options w)
    = Ok (Sequences [] []) /\
    (Affine.is_degenerate T = false ->
     fst (rowcol (TAffine T) (PyList []) (PyList []) None op None options w)
     = Ok (Sequences [] []) /\
     fst (rowcol (TAffine T) (PyList []) (PyNum s) None op None options w)
     = Ok (Sequences [] [])).
Proof.
  intros R N gdal T s offset op options w I.
  rewrite !xy_affine, !rowcol_affine. cbn [fst].
  split; [|split].
  - destruct T. cbn in I.
    destruct I as [<-|[<-|[<-|[<-|[<-|[]]]]]]; reflexivity.
  - destruct T. cbn in I.
    destruct I as [<-|[<-|[<-|[<-|[<-|[]]]]]]; reflexivity.
  - intros D. pose proof (invert_not_degenerate T D) as E. cbv zeta in E.
    unfold TransformerBase.rowcol, mbind, lift, ret.
    split; cbn -[Affine.invert]; rewrite E; destruct op; reflexivity.
Qed.

Lemma X9_empty_input_witness :
  fst (xy (gdal := no_engine F64.t)
         (TAffine (from_origin (of_int 0) (of_int 10) (of_int 2) (of_int 2)))
         (PyList []) (PyList []) None "center" tt world0)
  = Ok (Sequences [] []).
Proof.
  apply (X9_empty_input F64.t binary64 (no_engine F64.t)
           (from_origin (of_int 0) (of_int 10) (of_int 2) (of_int 2))
           (of_int 0) "center" TransformerBase.math_floor tt world0).
  cbn. tauto.
Defined.

(** ** Exact arithmetic *)

Ltac to_Q :=
  unfold zero, one in *;
  cbn [fadd fsub fmul fneg fdiv of_int half feqb fltb ffloor exact
       Affine.a Affine.b Affine.c Affine.d Affine.e Affine.f fst snd] in *;
  change (inject_Z 0) with 0%Q in *;
  change (inject_Z 1) with 1%Q in *.

Section ScalarXY.
Context {R : Type} `{Number R}.
Local Open Scope num_scope.

(** [xy] of one pixel. *)
Lemma xy_scalar_fractions (T : Affine.t R) (row col coff roff : R) offset :
  TransformerBase.offset_fractions offset = Ok (coff, roff) ->
  TransformerBase.xy (AffineTransformer.new T) (PyNum row) (PyNum col) None offset
  = let c' := one * col + zero * row + coff * one in
    let r' := zero * col + one * row + roff * one in
    Ok (Scalars (Affine.a T * c' + Affine.b T * r' + Affine.c T * one)
                (Affine.d T * c' + Affine.e T * r' + Affine.f T * one)).
Proof.
  intros O.
  rewrite (xy_method_affine T _ _ _ _ _ _ _ coff roff
             (ensure_arr_input_scalars row col) O).
  now destruct T.
Qed.

End ScalarXY.

(** X10. In exact arithmetic [xy] is the product of the transform by the
    shifted pixel indices: [xy(T, row, col, offset)] is
    [T * (col + coff, row + roff)], where [(coff, roff)] are the
    fractions of the offset. *)
Theorem X10_xy_is_affine_product :
  forall (gdal : GeodeticEngine Q) (T : Affine.t Q) (row col coff roff : Q)
         offset (options : rpc_options) (w : world),
    TransformerBase.offset_fractions offset = Ok (coff, roff) ->
    exists x y : Q,
      fst (xy (TAffine T) (PyNum row) (PyNum col) None offset options w)
      = Ok (Scalars x y) /\
      (x == fst (Affine.apply T (col + coff, row + roff)))%Q /\
      (y == snd (Affine.apply T (col + coff, row + roff)))%Q.
Proof.
  intros gdal T row col coff roff offset options w O.
  rewrite xy_affine, (xy_scalar_fractions T row col coff roff offset O).
  cbv zeta. cbn [fst]. do 2 eexists. split; [reflexivity|].
  destruct T as [a b c d e f]. unfold Affine.apply. to_Q.
  split; ring.
Qed.

Lemma X10_xy_is_affine_product_witness :
  let T : Affine.t Q := from_origin 0 10 2 2 in
  exists x y : Q,
    fst (xy (gdal := no_engine Q) (TAffine T) (PyNum 3) (PyNum 4) None
           "center" tt world0)
    = Ok (Scalars x y) /\
    (x == fst (Affine.apply T (4 + (1 # 2), 3 + (1 # 2))))%Q /\
    (y == snd (Affine.apply T (4 + (1 # 2), 3 + (1 # 2))))%Q.
Proof.
  cbv zeta.
  apply (X10_xy_is_affine_product (no_engine Q) (from_origin 0 10 2 2)
           3 4 (1 # 2) (1 # 2) "center" tt world0).
  reflexivity.
Defined.

(** X11. In exact arithmetic the corners of neighbouring pixels coincide:
    the lower right corner of pixel [(row, col)] is the upper left corner
    of pixel [(row + 1, col + 1)], its upper right corner the upper left
    corner of [(row, col + 1)], its lower left corner the upper left
    corner of [(row + 1, col)]. *)
Theorem X11_corners_coincide :
  forall (gdal : GeodeticEngine Q) (T : Affine.t Q) (row col : Q)
         (options : rpc_options) (w : world),
    let same (r1 r2 : result (shaped Q)) :=
      exists x1 y1 x2 y2,
        r1 = Ok (Scalars x1 y1) /\ r2 = Ok (Scalars x2 y2) /\
        (x1 == x2)%Q /\ (y1 == y2)%Q in
    let corner r c offset :=
      fst (xy (TAffine T) (PyNum r) (PyNum c) None offset options w) in
    same (corner row col "lr"%string)
         (corner (row + 1)%Q (col + 1)%Q "ul"%string) /\
    same (corner row col "ur"%string) (corner row (col + 1)%Q "ul"%string) /\
    same (corner row col "ll"%string) (corner (row + 1)%Q col "ul"%string).
Proof.
  intros gdal T row col options w. cbv beta zeta.
  rewrite !xy_affine. cbn [fst].
  rewrite (xy_scalar_fractions T row col one one "lr" eq_refl).
  rewrite (xy_scalar_fractions T row col one zero "ur" eq_refl).
  rewrite (xy_scalar_fractions T row col zero one "ll" eq_refl).
  rewrite !(fun r c => xy_scalar_fractions T r c zero zero "ul" eq_refl).
  cbv zeta. destruct T as [a b c d e f].
  repeat split; do 4 eexists;
    (split; [reflexivity|split; [reflexivity|to_Q; split; ring]]).
Qed.

Lemma Qfloor_plus_half (z : Z) : Qfloor (inject_Z z + (1 # 2)) = z.
Proof.
  unfold Qfloor, Qplus, inject_Z. cbn [Qnum Qden].
  symmetry. apply Z.div_unique with (r := 1%Z); lia.
Qed.

Lemma Qfloor_plus_one (z : Z) : Qfloor (inject_Z z + 1) = (z + 1)%Z.
Proof.
  apply Qfloor_eq_Z. rewrite inject_Z_plus. reflexivity.
Qed.

Lemma exact_not_degenerate (T : Affine.t Q) :
  Affine.is_degenerate T = false -> ~ (Affine.determinant T == 0)%Q.
Proof.
  intros D E. apply Qeq_bool_iff in E.
  change (Qeq_bool (Affine.determinant T) 0 = false) in D. congruence.
Qed.

(** The round trip in exact arithmetic, for any offset. *)
Lemma roundtrip_exact (gdal : GeodeticEngine Q) (T : Affine.t Q)
  (row col : Z) (coff roff : Q) offset (options : rpc_options) (w : world) :
  Affine.is_degenerate T = false ->
  TransformerBase.offset_fractions offset = Ok (coff, roff) ->
  exists x y : Q,
    fst (xy (TAffine T) (PyNum (of_int row)) (PyNum (of_int col)) None offset
           options w)
    = Ok (Scalars x y) /\
    fst (rowcol (TAffine T) (PyNum x) (PyNum y) None
           TransformerBase.math_floor None options w)
    = Ok (Scalars (TransformerBase.PyInt (Qfloor (inject_Z row + roff)))
                  (TransformerBase.PyInt (Qfloor (inject_Z col + coff)))).
Proof.
  intros D O.
  rewrite xy_affine, (xy_scalar_fractions T _ _ coff roff offset O).
  cbv zeta. cbn [fst]. do 2 eexists. split; [reflexivity|].
  rewrite rowcol_affine.
  erewrite rowcol_scalar by (apply invert_not_degenerate; exact D).
  pose proof (exact_not_degenerate T D) as Dne.
  destruct T as [a b c d e f].
  cbn [fst TransformerBase.call TransformerBase.math_floor bind
         ffloor exact Exact.floor].
  unfold Affine.determinant in *. to_Q.
  match goal with
  | |- Ok (Scalars (TransformerBase.PyInt (Qfloor ?u))
                   (TransformerBase.PyInt (Qfloor ?v))) = _ =>
      rewrite (Qfloor_comp u (inject_Z row + roff)),
              (Qfloor_comp v (inject_Z col + coff));
      [reflexivity|field; exact Dne|field; exact Dne]
  end.
Qed.

(** X12. In exact arithmetic, through an affine transform that is not
    degenerate, [rowcol] with [math.floor] takes the centre of pixel
    [(row, col)] back to [(row, col)], its upper right corner to
    [(row, col + 1)], its lower left corner to [(row + 1, col)] and its
    lower right corner to [(row + 1, col + 1)]: a pixel owns its upper
    and left edges only. *)
Theorem X12_roundtrip_by_offset :
  forall (gdal : GeodeticEngine Q) (T : Affine.t Q) (row col : Z)
         (options : rpc_options) (w : world),
    Affine.is_degenerate T = false ->
    let back offset (r c : Z) :=
      exists x y : Q,
        fst (xy (TAffine T) (PyNum (of_int row)) (PyNum (of_int col)) None
               offset options w)
        = Ok (Scalars x y) /\
        fst (rowcol (TAffine T) (PyNum x) (PyNum y) None
               TransformerBase.math_floor None options w)
        = Ok (Scalars (TransformerBase.PyInt r) (TransformerBase.PyInt c)) in
    back "center"%string row col /\
    back "ur"%string row (col + 1)%Z /\
    back "ll"%string (row + 1)%Z col /\
    back "lr"%string (row + 1)%Z (col + 1)%Z.
Proof.
  intros gdal T row col options w D. cbv beta zeta.
  assert (Z0 : forall z, Qfloor (inject_Z z + zero) = z).
  { intros z. apply Qfloor_eq_Z. to_Q. ring. }
  repeat split.
  - destruct (roundtrip_exact gdal T row col half half "center" options w
                D eq_refl) as (x & y & E1 & E2).
    exists x, y. split; [exact E1|]. rewrite E2.
    change (half : Q) with (1 # 2). now rewrite !Qfloor_plus_half.
  - destruct (roundtrip_exact gdal T row col one zero "ur" options w
                D eq_refl) as (x & y & E1 & E2).
    exists x, y. split; [exact E1|]. rewrite E2, Z0.
    change (one : Q) with 1%Q. now rewrite Qfloor_plus_one.
  - destruct (roundtrip_exact gdal T row col zero one "ll" options w
                D eq_refl) as (x & y & E1 & E2).
    exists x, y. split; [exact E1|]. rewrite E2, Z0.
    change (one : Q) with 1%Q. now rewrite Qfloor_plus_one.
  - destruct (roundtrip_exact gdal T row col one one "lr" options w
                D eq_refl) as (x & y & E1 & E2).
    exists x, y. split; [exact E1|]. rewrite E2.
    change (one : Q) with 1%Q. now rewrite !Qfloor_plus_one.
Qed.

Lemma X12_roundtrip_by_offset_witness :
  exists x y : Q,
    fst (xy (gdal := no_engine Q) (TAffine (from_origin 0 0 49 1))
           (PyNum (of_int 0)) (PyNum (of_int 1)) None "lr" tt world0)
    = Ok (Scalars x y) /\
    fst (rowcol (gdal := no_engine Q) (TAffine (from_origin 0 0 49 1))
           (PyNum x) (PyNum y) None TransformerBase.math_floor None tt world0)
    = Ok (Scalars (TransformerBase.PyInt 1) (TransformerBase.PyInt 2)).
Proof.
  assert (D : Affine.is_degenerate (from_origin 0 0 49 1 : Affine.t Q) = false)
    by reflexivity.
  exact (proj2 (proj2 (proj2
           (X12_roundtrip_by_offset (no_engine Q) (from_origin 0 0 49 1)
              0%Z 1%Z tt world0 D)))).
Defined.

Lemma from_origin_Qeq (west north xsize ysize : Q) :
  Affine_Qeq (from_origin west north xsize ysize)
    (Affine.mk xsize 0 west 0 (- ysize) north).
Proof.
  unfold Affine_Qeq, from_origin, Affine.mul, Affine.translation, Affine.scale.
  to_Q. repeat split; ring.
Qed.

Lemma from_origin_determinant (west north xsize ysize : Q) :
  (Affine.determinant (from_origin west north xsize ysize)
   == - (xsize * ysize))%Q.
Proof.
  unfold Affine.determinant, from_origin, Affine.mul, Affine.translation,
    Affine.scale.
  to_Q. ring.
Qed.

Lemma from_origin_degenerate_iff (west north xsize ysize : Q) :
  Affine.is_degenerate (from_origin west north xsize ysize) = true <->
  (xsize == 0 \/ ysize == 0)%Q.
Proof.
  unfold Affine.is_degenerate. cbn [feqb exact]. unfold zero. cbn [of_int exact].
  change (inject_Z 0) with 0%Q.
  rewrite Qeq_bool_iff, from_origin_determinant. split.
  - intros E0.
    assert (E1 : (xsize * ysize == 0)%Q).
    { setoid_replace (xsize * ysize)%Q with (- - (xsize * ysize))%Q by ring.
      rewrite E0. ring. }
    apply Qmult_integral in E1. exact E1.
  - intros [E0|E0]; rewrite E0; ring.
Qed.

(** X13. [from_origin] in exact arithmetic: its coefficients are
    [(xsize, 0, west, 0, -ysize, north)], and it is degenerate exactly
    when a pixel size is zero. *)
Theorem X13_from_origin_coefficients :
  forall west north xsize ysize : Q,
    Affine_Qeq (from_origin west north xsize ysize)
      (Affine.mk xsize 0 west 0 (- ysize) north) /\
    (Affine.is_degenerate (from_origin west north xsize ysize) = true <->
     (xsize == 0 \/ ysize == 0)%Q).
Proof.
  intros west north xsize ysize. split.
  - apply from_origin_Qeq.
  - apply from_origin_degenerate_iff.
Qed.

(** X14. [rowcol] on a raster in exact arithmetic: with the transform
    [from_origin(west, north, xsize, ysize)] of pixel sizes that are not
    zero, the pixel of the point [(x, y)] is
    [(floor((north - y) / ysize), floor((x - west) / xsize))]. *)
Theorem X14_rowcol_from_origin :
  forall (gdal : GeodeticEngine Q) (west north xsize ysize x y : Q)
         (options : rpc_options) (w : world),
    ~ (xsize == 0)%Q -> ~ (ysize == 0)%Q ->
    fst (rowcol (TAffine (from_origin west north xsize ysize))
           (PyNum x) (PyNum y) None TransformerBase.math_floor None options w)
    = Ok (Scalars
            (TransformerBase.PyInt (Qfloor ((north - y) / ysize)))
            (TransformerBase.PyInt (Qfloor ((x - west) / xsize)))).
Proof.
  intros gdal west north xsize ysize x y options w Hx Hy.
  assert (D : Affine.is_degenerate (from_origin west north xsize ysize) = false).
  { destruct (Affine.is_degenerate _) eqn:E; [|reflexivity].
    apply from_origin_degenerate_iff in E. tauto. }
  rewrite rowcol_affine.
  erewrite rowcol_scalar by (apply invert_not_degenerate; exact D).
  pose proof (exact_not_degenerate _ D) as Dne.
  unfold Affine.determinant, from_origin, Affine.mul, Affine.translation,
    Affine.scale in *.
  cbn [fst TransformerBase.call TransformerBase.math_floor bind
         ffloor exact Exact.floor].
  to_Q.
  match goal with
  | |- Ok (Scalars (TransformerBase.PyInt (Qfloor ?u))
                   (TransformerBase.PyInt (Qfloor ?v))) = _ =>
      rewrite (Qfloor_comp u ((north - y) / ysize)),
              (Qfloor_comp v ((x - west) / xsize));
      [reflexivity|field; auto|field; auto]
  end.
Qed.

Lemma X14_rowcol_from_origin_witness :
  fst (rowcol (gdal := no_engine Q) (TAffine (from_origin 0 10 2 2))
         (PyNum 5) (PyNum 7) None TransformerBase.math_floor None tt world0)
  = Ok (Scalars (TransformerBase.PyInt (Qfloor ((10 - 7) / 2)))
                (TransformerBase.PyInt (Qfloor ((5 - 0) / 2)))).
Proof.
  apply (X14_rowcol_from_origin (no_engine Q) 0 10 2 2 5 7 tt world0);
    discriminate.
Defined.

(** ** [from_bounds] and [array_bounds] in exact arithmetic *)

Lemma Qeq_bool_false (x y : Q) : ~ (x == y)%Q -> Qeq_bool x y = false.
Proof.
  intros NE. destruct (Qeq_bool x y) eqn:E; [|reflexivity].
  apply Qeq_bool_iff in E. contradiction.
Qed.

Lemma from_bounds_exact (west south east north width height : Q) :
  ~ (width == 0)%Q -> ~ (height == 0)%Q ->
  from_bounds west south east north width height
  = Ok (Affine.mul (Affine.translation west north)
          (Affine.scale ((east - west) / width) ((south - north) / height))).
Proof.
  intros Hw Hh. unfold from_bounds, truediv. cbn [feqb exact].
  unfold zero. cbn [of_int exact]. change (inject_Z 0) with 0%Q.
  now rewrite (Qeq_bool_false _ _ Hw), (Qeq_bool_false _ _ Hh).
Qed.

Lemma axis_aligned_product (west north sx sy : Q) :
  let T := Affine.mul (Affine.translation west north) (Affine.scale sx sy) in
  feqb (Affine.b T) zero = true /\ feqb (Affine.d T) zero = true.
Proof.
  cbv zeta. unfold Affine.mul, Affine.translation, Affine.scale. to_Q.
  split; apply Qeq_bool_iff; ring.
Qed.

(** X15. [from_bounds] raises [ZeroDivisionError] when the width or the
    height is zero; otherwise, in exact arithmetic, [array_bounds] of the
    same height and width gives the bounds back:
    [array_bounds(height, width, from_bounds(west, south, east, north,
    width, height))] is [(west, south, east, north)]. *)
Theorem X15_from_bounds_array_bounds :
  forall west south east north width height : Q,
    ((width == 0 \/ height == 0)%Q ->
     from_bounds west south east north width height = Raise ZeroDivisionError) /\
    (~ (width == 0)%Q -> ~ (height == 0)%Q ->
     exists T,
       from_bounds west south east north width height = Ok T /\
       let '(w', s', e', n') := array_bounds height width T in
       (w' == west /\ s' == south /\ e' == east /\ n' == north)%Q).
Proof.
  intros west south east north width height. split.
  - intros Z. unfold from_bounds, truediv. cbn [feqb exact].
    unfold zero. cbn [of_int exact]. change (inject_Z 0) with 0%Q.
    destruct (Qeq_bool width 0) eqn:Ew; [reflexivity|]. cbn [bind].
    destruct (Qeq_bool height 0) eqn:Eh; [reflexivity|].
    exfalso. destruct Z as [Z|Z]; apply Qeq_bool_iff in Z; congruence.
  - intros Hw Hh. eexists. split; [apply from_bounds_exact; assumption|].
    destruct (axis_aligned_product west north ((east - west) / width)
                ((south - north) / height)) as [Eb Ed].
    rewrite (array_bounds_axis_aligned _ _ _ Eb Ed).
    unfold Affine.mul, Affine.translation, Affine.scale. to_Q.
    repeat split; field; assumption.
Qed.

Lemma X15_from_bounds_array_bounds_witness :
  exists T : Affine.t Q,
    from_bounds 0 0 10 20 5 4 = Ok T /\
    let '(w', s', e', n') := array_bounds 4 5 T in
    (w' == 0 /\ s' == 0 /\ e' == 10 /\ n' == 20)%Q.
Proof.
  apply (X15_from_bounds_array_bounds 0 0 10 20 5 4); discriminate.
Defined.

(** X16. In exact arithmetic [from_bounds] is [from_origin] at the upper
    left corner [(west, north)] with the pixel sizes
    [(east - west) / width] and [(north - south) / height]. *)
Theorem X16_from_bounds_is_from_origin :
  forall west south east north width height : Q,
    ~ (width == 0)%Q -> ~ (height == 0)%Q ->
    exists T,
      from_bounds west south east north width height = Ok T /\
      Affine_Qeq T
        (from_origin west north
           ((east - west) / width) ((north - south) / height)).
Proof.
  intros west south east north width height Hw Hh.
  eexists. split; [apply from_bounds_exact; assumption|].
  unfold Affine_Qeq, from_origin, Affine.mul, Affine.translation, Affine.scale.
  to_Q. repeat split; field; assumption.
Qed.

Lemma X16_from_bounds_is_from_origin_witness :
  exists T : Affine.t Q,
    from_bounds 0 0 10 20 5 4 = Ok T /\
    Affine_Qeq T (from_origin 0 20 ((10 - 0) / 5) ((20 - 0) / 4)).
Proof.
  apply (X16_from_bounds_is_from_origin 0 0 10 20 5 4); discriminate.
Defined.

Lemma exact_ltb_spec (x y : Q) :
  (fltb x y = true -> (x < y)%Q) /\ (fltb x y = false -> (y <= x)%Q).
Proof.
  cbn [fltb exact]. unfold Exact.ltb. split; intros E.
  - apply negb_true_iff in E. apply Qnot_le_lt. intros L.
    apply Qle_bool_iff in L. congruence.
  - apply negb_false_iff in E. now apply Qle_bool_iff.
Qed.

Lemma py_min_exact (x0 : Q) (rest : list Q) :
  In (py_min x0 rest) (x0 :: rest) /\
  forall x, In x (x0 :: rest) -> (py_min x0 rest <= x)%Q.
Proof.
  revert x0. induction rest as [|x1 rest IH]; intros x0.
  - cbn. split; [auto|]. intros x [<-|[]]. apply Qle_refl.
  - unfold py_min. cbn [fold_left].
    change (fold_left _ rest ?m) with (py_min m rest).
    destruct (exact_ltb_spec x1 x0) as [Lt Ge].
    destruct (fltb x1 x0).
    + destruct (IH x1) as [I L]. split.
      * destruct I as [I|I]; [right; left; exact I|right; right; exact I].
      * intros x [<-|[<-|I']].
        -- apply Qle_trans with x1; [apply L; now left|].
           apply Qlt_le_weak. now apply Lt.
        -- apply L. now left.
        -- apply L. now right.
    + destruct (IH x0) as [I L]. split.
      * destruct I as [I|I]; [left; exact I|right; right; exact I].
      * intros x [<-|[<-|I']].
        -- apply L. now left.
        -- apply Qle_trans with x0; [apply L; now left|now apply Ge].
        -- apply L. now right.
Qed.

Lemma py_max_exact (x0 : Q) (rest : list Q) :
  In (py_max x0 rest) (x0 :: rest) /\
  forall x, In x (x0 :: rest) -> (x <= py_max x0 rest)%Q.
Proof.
  revert x0. induction rest as [|x1 rest IH]; intros x0.
  - cbn. split; [auto|]. intros x [<-|[]]. apply Qle_refl.
  - unfold py_max. cbn [fold_left].
    change (fold_left _ rest ?m) with (py_max m rest).
    destruct (exact_ltb_spec x0 x1) as [Lt Ge].
    destruct (fltb x0 x1).
    + destruct (IH x1) as [I L]. split.
      * destruct I as [I|I]; [right; left; exact I|right; right; exact I].
      * intros x [<-|[<-|I']].
        -- apply Qle_trans with x1; [|apply L; now left].
           apply Qlt_le_weak. now apply Lt.
        -- apply L. now left.
        -- apply L. now right.
    + destruct (IH x0) as [I L]. split.
      * destruct I as [I|I]; [left; exact I|right; right; exact I].
      * intros x [<-|[<-|I']].
        -- apply L. now left.
        -- apply Qle_trans with x0; [now apply Ge|apply L; now left].
        -- apply L. now right.
Qed.

(** X17. When [b] or [d] is not zero, the bounds [array_bounds] returns
    are, in exact arithmetic, the bounding box of the four corners of the
    array: every corner lies within them, and each bound is the
    coordinate of a corner. *)
Theorem X17_array_bounds_bounding_box :
  forall (height width : Q) (t : Affine.t Q),
    feqb (Affine.b t) zero = false \/ feqb (Affine.d t) zero = false ->
    let corners :=
      [(Affine.c t, Affine.f t); Affine.apply t (zero, height);
       Affine.apply t (width, height); Affine.apply t (width, zero)] in
    let '(west, south, east, north) := array_bounds height width t in
    (forall p, In p corners ->
               (west <= fst p <= east /\ south <= snd p <= north)%Q) /\
    In west (map fst corners) /\ In east (map fst corners) /\
    In south (map snd corners) /\ In north (map snd corners).
Proof.
  intros height width t Hbd.
  rewrite (array_bounds_rotated height width t Hbd). cbv zeta.
  set (c0 := (Affine.c t, Affine.f t)).
  set (c1 := Affine.apply t (zero, height)).
  set (c2 := Affine.apply t (width, height)).
  set (c3 := Affine.apply t (width, zero)).
  destruct (py_min_exact (fst c0) [fst c1; fst c2; fst c3]) as [Iw Lw].
  destruct (py_max_exact (fst c0) [fst c1; fst c2; fst c3]) as [Ie Le].
  destruct (py_min_exact (snd c0) [snd c1; snd c2; snd c3]) as [Is Ls].
  destruct (py_max_exact (snd c0) [snd c1; snd c2; snd c3]) as [In' Ln].
  split; [|cbn [map]; auto].
  intros p Hp.
  assert (Hx : In (fst p) [fst c0; fst c1; fst c2; fst c3]).
  { change [fst c0; fst c1; fst c2; fst c3] with (map fst [c0; c1; c2; c3]).
    now apply in_map. }
  assert (Hy : In (snd p) [snd c0; snd c1; snd c2; snd c3]).
  { change [snd c0; snd c1; snd c2; snd c3] with (map snd [c0; c1; c2; c3]).
    now apply in_map. }
  auto.
Qed.

Lemma X17_array_bounds_bounding_box_witness :
  let t : Affine.t Q := Affine.mk 1 1 0 (-1) 1 0 in
  let corners :=
    [(Affine.c t, Affine.f t); Affine.apply t (zero, 2);
     Affine.apply t (3, 2); Affine.apply t (3, zero)] in
  let '(west, south, east, north) := array_bounds 2 3 t in
  (forall p, In p corners ->
             (west <= fst p <= east /\ south <= snd p <= north)%Q) /\
  In west (map fst corners) /\ In east (map fst corners) /\
  In south (map snd corners) /\ In north (map snd corners).
Proof.
  apply (X17_array_bounds_bounding_box 2 3 (Affine.mk 1 1 0 (-1) 1 0)).
  left. reflexivity.
Defined.

(** X18. The bounds of a raster in exact arithmetic:
    [array_bounds(height, width, from_origin(west, north, xsize, ysize))]
    is [(west, north - ysize*height, west + xsize*width, north)]. *)
Theorem X18_array_bounds_from_origin :
  forall west north xsize ysize height width : Q,
    let '(w', s', e', n') :=
      array_bounds height width (from_origin west north xsize ysize) in
    (w' == west /\ s' == north - ysize * height /\
     e' == west + xsize * width /\ n' == north)%Q.
Proof.
  intros west north xsize ysize height width.
  destruct (axis_aligned_product west north xsize (- ysize)) as [Eb Ed].
  unfold from_origin.
  rewrite (array_bounds_axis_aligned _ _ _ Eb Ed).
  unfold Affine.mul, Affine.translation, Affine.scale. to_Q.
  repeat split; ring.
Qed.

(** ** [guard_transform] *)

(** X19. [guard_transform] returns an [Affine] as it is; it turns six
    coefficients given in the order of [affine] into that [Affine]
    whenever [e] is not zero; and it refuses with [TypeError] the
    coefficients in the order of GDAL of every transform with
    [b = d = 0], [a > 0] and [e < 0], such as the transform of a north-up
    raster. *)
Theorem X19_guard_transform :
  forall (R : Type) (N : Number R) (L : NumberLaws R) (T : Affine.t R),
    guard_transform (an_Affine T) = Ok T /\
    (feqb (Affine.e T) zero = false ->
     guard_transform
       (a_sequence [Affine.a T; Affine.b T; Affine.c T;
                    Affine.d T; Affine.e T; Affine.f T]) = Ok T) /\
    (feqb (Affine.b T) zero = true -> feqb (Affine.d T) zero = true ->
     fltb zero (Affine.a T) = true -> fltb (Affine.e T) zero = true ->
     exists msg,
       guard_transform (a_sequence (Affine_to_gdal T)) = Raise (TypeError msg)).
Proof.
  intros R N L [a b c d e f].
  cbn [Affine.a Affine.b Affine.c Affine.d Affine.e Affine.f].
  split; [reflexivity|split].
  - intros He. unfold guard_transform, tastes_like_gdal.
    unfold GDAL_IDENTITY, IDENTITY, Affine_to_gdal, Affine.identity.
    cbn [tuple_eqb Affine.a Affine.b Affine.c Affine.d Affine.e Affine.f
           getitem nth_error bind].
    rewrite He. cbn [andb]. rewrite !andb_false_r. cbn [bind].
    reflexivity.
  - intros Hb Hd Ha He. unfold guard_transform, tastes_like_gdal.
    destruct (tuple_eqb _ GDAL_IDENTITY); [cbn; eauto|].
    unfold Affine_to_gdal.
    cbn [Affine.a Affine.b Affine.c Affine.d Affine.e Affine.f
           getitem nth_error bind].
    rewrite (feqb_zeros b d Hb Hd), Hd. cbn [andb bind].
    rewrite Ha. cbn [bind]. rewrite He. cbn. eauto.
Qed.

Lemma X19_guard_transform_witness :
  (guard_transform
     (a_sequence [2; 0; 100; 0; -2; 50]%Q) = Ok (Affine.mk 2 0 100 0 (-2) 50)%Q) /\
  exists msg,
    guard_transform (a_sequence [100; 2; 0; 50; 0; -2]%Q)
    = Raise (TypeError msg).
Proof.
  pose proof (X19_guard_transform Q exact exact_laws
                (Affine.mk 2 0 100 0 (-2) 50)%Q) as (_ & A & G).
  split.
  - apply A. reflexivity.
  - apply G; reflexivity.
Defined.

(** ** [rowcol] on sequences *)

Lemma mapM_length {A B : Type} (g : A -> result B) (l : list A) (l' : list B) :
  mapM g l = Ok l' -> List.length l' = List.length l.
Proof.
  revert l'. induction l as [|a l IH]; intros l'; cbn.
  - now intros [= <-].
  - destruct (g a); [|discriminate]. destruct (mapM g l); [|discriminate].
    intros [= <-]. cbn. now rewrite (IH _ eq_refl).
Qed.

Lemma mapM_nth {A B : Type} (g : A -> result B) (l : list A) (l' : list B)
  (i : nat) (a : A) :
  mapM g l = Ok l' -> nth_error l i = Some a ->
  exists b, nth_error l' i = Some b /\ g a = Ok b.
Proof.
  revert l' i. induction l as [|a0 l IH]; intros l' i; cbn.
  - destruct i; discriminate.
  - destruct (g a0) as [b0|] eqn:E0; [|discriminate].
    destruct (mapM g l) as [bs|]; [|discriminate].
    intros [= <-]. destruct i as [|i]; cbn.
    + intros [= <-]. eauto.
    + intros Hi. exact (IH bs i eq_refl Hi).
Qed.

Section AffineReverse.
Context {R : Type} `{Number R}.

Lemma affine_transform_reverse (T T' : Affine.t R) (xs ys zs : list R) :
  Affine.invert T = Ok T' ->
  List.length ys = List.length xs ->
  AffineTransformer._transform T xs ys zs reverse = Ok (affine_points T' xs ys).
Proof.
  intros I L. unfold AffineTransformer._transform, np_setrow_arr, np_setrow.
  rewrite L, Nat.eqb_refl. cbn [bind]. rewrite I. cbn [bind]. now destruct T'.
Qed.

Lemma affine_transform_reverse_inv (T : Affine.t R) (xs ys zs nc nr : list R) :
  List.length ys = List.length xs ->
  AffineTransformer._transform T xs ys zs reverse = Ok (nc, nr) ->
  exists T', Affine.invert T = Ok T' /\ (nc, nr) = affine_points T' xs ys.
Proof.
  intros L E. destruct (Affine.invert T) as [T'|e] eqn:I.
  - exists T'. split; [reflexivity|].
    rewrite (affine_transform_reverse T T' xs ys zs I L) in E. congruence.
  - exfalso. revert E.
    unfold AffineTransformer._transform, np_setrow_arr, np_setrow.
    rewrite L, Nat.eqb_refl. cbn [bind]. rewrite I. discriminate.
Qed.

End AffineReverse.

(** X20. In exact arithmetic, [rowcol] with [math.floor] of two
    sequences of the same length is the pointwise computation: when it
    returns, through an affine transform, the sequences of rows and of
    cols have the length of the input and hold, position by position,
    what [rowcol] returns for the single point.  (In binary64 the kernels
    of [np.matmul] for one column and for several may round
    differently.) *)
Theorem X20_rowcol_batch_is_pointwise :
  forall (gdal : GeodeticEngine Q) (T : Affine.t Q) (xs ys : list Q)
         (options : rpc_options) (w : world)
         (rows cols : list (TransformerBase.pynum Q)),
    List.length ys = List.length xs ->
    fst (rowcol (TAffine T) (PyList xs) (PyList ys) None
           TransformerBase.math_floor None options w)
    = Ok (Sequences rows cols) ->
    List.length rows = List.length xs /\
    List.length cols = List.length xs /\
    forall i x y,
      nth_error xs i = Some x -> nth_error ys i = Some y ->
      exists row col,
        nth_error rows i = Some row /\ nth_error cols i = Some col /\
        fst (rowcol (TAffine T) (PyNum x) (PyNum y) None
               TransformerBase.math_floor None options w)
        = Ok (Scalars row col).
Proof.
  intros gdal T xs ys options w rows cols L E.
  rewrite rowcol_affine in E.
  apply rowcol_method_inv in E
    as (p0 & p1 & p2 & nc & nr & E0 & Et &
        [(A & _)|(_ & rows' & cols' & Mr & Mc & [= <- <-])]);
    [discriminate A|].
  rewrite (ensure_arr_input_lists xs ys L) in E0.
  injection E0 as <- <- <-.
  cbn [_transform AffineTransformer.new] in Et.
  apply affine_transform_reverse_inv in Et as (T' & I & Ep); [|exact L].
  unfold affine_points in Ep. injection Ep as -> ->.
  pose proof (mapM_length _ _ _ Mr) as Lr.
  pose proof (mapM_length _ _ _ Mc) as Lc.
  rewrite matmul_row_length in Lr, Lc by auto using repeat_length.
  split; [exact Lr|]. split; [exact Lc|].
  intros i x y Hx Hy.
  pose proof (nth_matmul_row (Affine.d T') (Affine.e T') (Affine.f T')
                xs ys i x y L Hx Hy) as Hr.
  pose proof (nth_matmul_row (Affine.a T') (Affine.b T') (Affine.c T')
                xs ys i x y L Hx Hy) as Hc.
  destruct (mapM_nth _ _ _ _ _ Mr Hr) as (row & Nr & Cr).
  destruct (mapM_nth _ _ _ _ _ Mc Hc) as (col & Nc & Cc).
  exists row, col. split; [exact Nr|]. split; [exact Nc|].
  rewrite rowcol_affine,
    (rowcol_scalar T T' x y TransformerBase.math_floor w I).
  cbn [fst]. rewrite Cr. cbn [bind]. rewrite Cc. reflexivity.
Qed.

Lemma X20_rowcol_batch_is_pointwise_witness :
  exists row col,
    nth_error [TransformerBase.PyInt 2; TransformerBase.PyInt 0] 1 = Some row /\
    nth_error [TransformerBase.PyInt 0; TransformerBase.PyInt 3] 1 = Some col /\
    fst (rowcol (gdal := no_engine Q) (TAffine (from_origin 0 10 2 2))
           (PyNum 7%Q) (PyNum 9%Q) None
           TransformerBase.math_floor None tt world0)
    = Ok (Scalars row col).
Proof.
  refine (proj2 (proj2
            (X20_rowcol_batch_is_pointwise (no_engine Q)
               (from_origin 0 10 2 2) [1; 7]%Q [5; 9]%Q tt world0
               [TransformerBase.PyInt 2; TransformerBase.PyInt 0]
               [TransformerBase.PyInt 0; TransformerBase.PyInt 3]
               eq_refl _))
            1%nat 7%Q 9%Q eq_refl eq_refl).
  vm_compute. reflexivity.
Defined.

(** X21. In exact arithmetic [xy] undoes [rowcol]: through an affine
    transform that is not degenerate, the fractional pixel position that
    [rowcol] computes for a point [(x, y)] when [op] does no rounding is
    taken back to [(x, y)] by [xy] with offset ["ul"]. *)
Theorem X21_xy_undoes_rowcol :
  forall (gdal : GeodeticEngine Q) (T : Affine.t Q) (x y : Q)
         (options : rpc_options) (w : world),
    Affine.is_degenerate T = false ->
    exists row col x' y' : Q,
      fst (rowcol (TAffine T) (PyNum x) (PyNum y) None
             (TransformerBase.ufunc (fun v => v)) None options w)
      = Ok (Scalars (TransformerBase.PyFloat row) (TransformerBase.PyFloat col)) /\
      fst (xy (TAffine T) (PyNum row) (PyNum col) None "ul" options w)
      = Ok (Scalars x' y') /\
      (x' == x)%Q /\ (y' == y)%Q.
Proof.
  intros gdal T x y options w D.
  rewrite rowcol_affine.
  erewrite rowcol_scalar by (apply invert_not_degenerate; exact D).
  cbn [fst TransformerBase.call bind].
  do 4 eexists. split; [reflexivity|].
  rewrite xy_affine, xy_scalar_ul. cbv zeta. cbn [fst].
  split; [reflexivity|].
  pose proof (exact_not_degenerate T D) as Dne.
  destruct T as [a b c d e f]. unfold Affine.determinant in *. to_Q.
  split; field; exact Dne.
Qed.

Lemma X21_xy_undoes_rowcol_witness :
  exists row col x' y' : Q,
    fst (rowcol (gdal := no_engine Q) (TAffine (from_origin 0 10 2 2))
           (PyNum 5) (PyNum 7) None
           (TransformerBase.ufunc (fun v => v)) None tt world0)
    = Ok (Scalars (TransformerBase.PyFloat row) (TransformerBase.PyFloat col)) /\
    fst (xy (gdal := no_engine Q) (TAffine (from_origin 0 10 2 2))
           (PyNum row) (PyNum col) None "ul" tt world0)
    = Ok (Scalars x' y') /\
    (x' == 5)%Q /\ (y' == 7)%Q.
Proof.
  apply (X21_xy_undoes_rowcol (no_engine Q) (from_origin 0 10 2 2) 5 7 tt world0).
  reflexivity.
Defined.

(** ** Outcomes of [rowcol], and failures of the transformer *)


Section RowcolOutcome.
Context {R : Type} `{Number R}.



End RowcolOutcome.



(** X23. Failures of the transformer, whatever it is: when its
    [_transform] raises a [TypeError], [xy] and [rowcol] raise
    [TransformError]; any other exception it raises comes out of [xy]
    and [rowcol] unchanged.  [xy] hands it the columns and rows shifted
    by the fractions of the offset, and [zs] as broadcast. *)
Theorem X23_transformer_failures :
  forall (R : Type) (N : Number R) (t : Transformer R)
         u v zs offset op precision (w : world)
         (p0 p1 p2 : list R) (coff roff : R) (e : exn),
    TransformerBase._ensure_arr_input u v zs = Ok (p0, p1, p2) ->
    let outcome (A : Type) : result A :=
      match e with
      | TypeError _ => Raise (TransformError "Invalid inputs")
      | _ => Raise e
      end in
    (TransformerBase.offset_fractions offset = Ok (coff, roff) ->
     let shifted := affine_points (Affine.translation coff roff) p1 p0 in
     _transform t (fst shifted) (snd shifted) p2 forward = Raise e ->
     TransformerBase.xy t u v zs offset = outcome _) /\
    (_transform t p0 p1 p2 reverse = Raise e ->
     fst (TransformerBase.rowcol t u v zs op precision w) = outcome _).
Proof.
  intros R N t u v zs offset op precision w p0 p1 p2 coff roff e E.
  cbv zeta. destruct (ensure_arr_input_lengths _ _ _ _ _ _ E) as [L1 _].
  split.
  - intros O Et. unfold TransformerBase.xy. rewrite E, O. cbn [bind].
    cbn [_transform AffineTransformer.new].
    rewrite affine_transform_points by congruence.
    destruct (affine_points (Affine.translation coff roff) p1 p0) as [oc or].
    cbn [fst snd bind] in *. rewrite Et. now destruct e.
  - intros Et.
    assert (P : fst (TransformerBase.rowcol t u v zs op precision w)
                = fst (TransformerBase.rowcol t u v zs op None w)).
    { destruct precision; [now rewrite rowcol_method_precision|reflexivity]. }
    rewrite P. unfold TransformerBase.rowcol, mbind, lift, ret.
    rewrite E, Et. now destruct e.
Qed.

Lemma X23_transformer_failures_witness :
  TransformerBase.xy
    (Build_Transformer (fun _ _ _ _ => Raise (TypeError "bad") : result (list Q * list Q)))
    (PyNum 1%Q) (PyNum 2%Q) None "ul"
  = Raise (TransformError "Invalid inputs").
Proof.
  apply (proj1 (X23_transformer_failures Q exact
                  (Build_Transformer (fun _ _ _ _ => Raise (TypeError "bad")))
                  (PyNum 1%Q) (PyNum 2%Q) None "ul"
                  TransformerBase.math_floor None world0
                  [1%Q] [2%Q] [zero] zero zero (TypeError "bad") eq_refl));
    reflexivity.
Defined.

(* ================================================================= *)
(** * The shape of the results *)

Section ResultShape.
Context {R : Type} `{Number R}.

(** The method [xy] of any transformer, once the coordinates are
    validated, the offset is resolved and the transformer has returned
    its two arrays. *)
Lemma xy_method_returns (t : Transformer R) rows cols zs offset
  (p0 p1 p2 : list R) (coff roff : R) (new_xs new_ys : list R) :
  TransformerBase._ensure_arr_input rows cols zs = Ok (p0, p1, p2) ->
  TransformerBase.offset_fractions offset = Ok (coff, roff) ->
  _transform t
    (fst (affine_points (Affine.translation coff roff) p1 p0))
    (snd (affine_points (Affine.translation coff roff) p1 p0))
    p2 forward
  = Ok (new_xs, new_ys) ->
  TransformerBase.xy t rows cols zs offset =
  if (List.length new_xs =? 1)%nat && negb (has_iter rows)
  then bind (item0 new_xs)
         (fun x => bind (item0 new_ys) (fun y => Ok (Scalars x y)))
  else Ok (Sequences new_xs new_ys).
Proof.
  intros E O Et. destruct (ensure_arr_input_lengths _ _ _ _ _ _ E) as [L1 _].
  unfold TransformerBase.xy. rewrite E, O. cbn [bind].
  cbn [_transform AffineTransformer.new].
  rewrite affine_transform_points by congruence.
  destruct (affine_points (Affine.translation coff roff) p1 p0) as [oc or].
  cbn [fst snd bind] in *. rewrite Et. cbn [bind].
  destruct ((List.length new_xs =? 1)%nat && negb (has_iter rows)).
  - destruct new_xs as [|x ?]; [reflexivity|].
    destruct new_ys as [|y ?]; reflexivity.
  - reflexivity.
Qed.

(** A scalar and a sequence of one item are validated to the same
    arrays, with or without a [zs] of one item. *)
Lemma ensure_arr_input_scalar_one (u v : R) :
  TransformerBase._ensure_arr_input (PyNum u) (PyList [v]) None
  = Ok ([u], [v], [zero]).
Proof. reflexivity. Qed.

Lemma ensure_arr_input_scalar_one_zs (u v z : R) :
  TransformerBase._ensure_arr_input (PyNum u) (PyList [v]) (Some (PyList [z]))
  = Ok ([u], [v], [z]).
Proof. reflexivity. Qed.

End ResultShape.

(** C5. The claim fails on [xy(T, row, [col])]: [cols] is a sequence,
    yet [xy] returns, for every affine transform and every valid offset,
    the pair of scalars it returns for [xy(T, row, col)], not two
    sequences.  [rowcol], which the claim says mirrors [xy], returns two
    sequences on arguments of the same kinds: whenever
    [rowcol(T, x, [y])] returns it returns sequences, and it does return
    them, of one item each, when the transform is not degenerate and
    [op] is a ufunc. *)
Theorem C5_xy_scalars_for_sequence_cols :
  forall (R : Type) (N : Number R) (gdal : GeodeticEngine R)
         (T : Affine.t R) (u v : R) offset (options : rpc_options) (w : world),
    In offset ["center"; "ul"; "ur"; "ll"; "lr"]%string ->
    has_iter (PyList [v]) = true /\
    (exists x y,
        fst (xy (TAffine T) (PyNum u) (PyList [v]) None offset options w)
        = Ok (Scalars x y) /\
        fst (xy (TAffine T) (PyNum u) (PyNum v) None offset options w)
        = Ok (Scalars x y)) /\
    (forall op (r : shaped (TransformerBase.pynum R)),
        fst (rowcol (TAffine T) (PyNum u) (PyList [v]) None op None options w)
        = Ok r ->
        exists rows cols, r = Sequences [rows] [cols]) /\
    (forall g : R -> R,
        Affine.is_degenerate T = false ->
        exists row col,
          fst (rowcol (TAffine T) (PyNum u) (PyList [v]) None
                 (TransformerBase.ufunc g) None options w)
          = Ok (Sequences [row] [col])).
Proof.
  intros R N gdal T u v offset options w I.
  split; [reflexivity|]. split; [|split].
  - destruct (offset_fractions_of_valid (R:=R) offset I) as [[coff roff] O].
    rewrite !xy_affine. cbn [fst].
    rewrite (xy_method_affine T _ _ _ _ _ _ _ coff roff
               (ensure_arr_input_scalar_one u v) O).
    rewrite (xy_method_affine T _ _ _ _ _ _ _ coff roff
               (ensure_arr_input_scalars u v) O).
    cbv zeta. cbn. do 2 eexists; split; reflexivity.
  - intros op r E. rewrite rowcol_affine in E.
    apply rowcol_method_inv in E
      as (p0 & p1 & p2 & nc & nr & E0 & Et &
          [(A & _)|(_ & rows & cols & Mr & Mc & ->)]);
      [discriminate A|].
    rewrite ensure_arr_input_scalar_one in E0. injection E0 as <- <- <-.
    cbn [_transform AffineTransformer.new] in Et.
    apply affine_transform_reverse_inv in Et as (T' & _ & Ep); [|reflexivity].
    unfold affine_points in Ep. injection Ep as -> ->.
    cbn [matmul_row List.length repeat] in Mr, Mc.
    apply mapM_length in Mr, Mc. cbn [List.length] in Mr, Mc.
    destruct rows as [|row [|? ?]]; try discriminate Mr.
    destruct cols as [|col [|? ?]]; try discriminate Mc.
    eauto.
  - intros g D. rewrite rowcol_affine. cbn [fst].
    unfold TransformerBase.rowcol, mbind, lift, ret.
    rewrite ensure_arr_input_scalar_one.
    cbn [_transform AffineTransformer.new fst snd].
    destruct (Affine.invert T) as [T'|e] eqn:Inv.
    + rewrite (affine_transform_reverse T T' [u] [v] [zero] Inv eq_refl).
      cbn. eauto.
    + rewrite (invert_not_degenerate T D) in Inv. discriminate Inv.
Qed.

Lemma C5_xy_scalars_for_sequence_cols_witness :
  let T : Affine.t F64.t :=
    from_origin (of_int 0) (of_int 10) (of_int 2) (of_int 2) in
  has_iter (PyList [of_int 5 : F64.t]) = true /\
  (exists x y,
      fst (xy (gdal := no_engine F64.t) (TAffine T)
             (PyNum (of_int 0)) (PyList [of_int 5]) None "center" tt world0)
      = Ok (Scalars x y) /\
      fst (xy (gdal := no_engine F64.t) (TAffine T)
             (PyNum (of_int 0)) (PyNum (of_int 5)) None "center" tt world0)
      = Ok (Scalars x y)) /\
  (exists row col,
      fst (rowcol (gdal := no_engine F64.t) (TAffine T)
             (PyNum (of_int 0)) (PyList [of_int 5]) None
             (TransformerBase.ufunc (fun x => x)) None tt world0)
      = Ok (Sequences [row] [col])).
Proof.
  cbv zeta.
  assert (I : In "center"%string ["center"; "ul"; "ur"; "ll"; "lr"]%string)
    by (simpl; tauto).
  assert (D : Affine.is_degenerate
                (from_origin (of_int 0) (of_int 10) (of_int 2) (of_int 2)
                 : Affine.t F64.t) = false) by reflexivity.
  destruct (C5_xy_scalars_for_sequence_cols F64.t binary64 (no_engine F64.t)
              (from_origin (of_int 0) (of_int 10) (of_int 2) (of_int 2))
              (of_int 0) (of_int 5) "center"%string tt world0 I)
    as (Hi & Hxy & _ & Hrc).
  split; [exact Hi|]. split; [exact Hxy|]. exact (Hrc (fun x => x) D).
Defined.

(** C9. Of its arguments [xy] asks only [rows] for [__iter__].  For every
    transformer, once the coordinates are validated and the transformer
    has returned its two arrays: if [rows] has no [__iter__] and exactly
    one point resulted, [xy] returns that point as a pair of scalars,
    whatever [cols] and [zs] are, and otherwise the two arrays as they
    are; if [rows] has [__iter__] it returns the two arrays, one point or
    not.  So with a scalar row and a one-item sequence as [cols] (and as
    [zs]) every transformer that returns one point gives a pair of
    scalars, and every affine transformer does.  [rowcol] returns
    scalars exactly when none of [xs], [ys], [zs] has [__iter__]. *)
Theorem C9_xy_tests_rows_only :
  forall (R : Type) (N : Number R) (gdal : GeodeticEngine R),
    (forall (t : Transformer R) rows cols zs offset
            (p0 p1 p2 : list R) (coff roff : R) (new_xs new_ys : list R),
        TransformerBase._ensure_arr_input rows cols zs = Ok (p0, p1, p2) ->
        TransformerBase.offset_fractions offset = Ok (coff, roff) ->
        _transform t
          (fst (affine_points (Affine.translation coff roff) p1 p0))
          (snd (affine_points (Affine.translation coff roff) p1 p0))
          p2 forward
        = Ok (new_xs, new_ys) ->
        (has_iter rows = false ->
         forall x y ys', new_xs = [x] -> new_ys = y :: ys' ->
           TransformerBase.xy t rows cols zs offset = Ok (Scalars x y)) /\
        (has_iter rows = false -> List.length new_xs <> 1%nat ->
         TransformerBase.xy t rows cols zs offset
         = Ok (Sequences new_xs new_ys)) /\
        (has_iter rows = true ->
         TransformerBase.xy t rows cols zs offset
         = Ok (Sequences new_xs new_ys))) /\
    (forall (t : Transformer R) (row col z : R) offset (coff roff : R)
            (x y : R),
        TransformerBase.offset_fractions offset = Ok (coff, roff) ->
        let shifted := affine_points (Affine.translation coff roff) [col] [row] in
        (_transform t (fst shifted) (snd shifted) [zero] forward
         = Ok ([x], [y]) ->
         TransformerBase.xy t (PyNum row) (PyList [col]) None offset
         = Ok (Scalars x y)) /\
        (_transform t (fst shifted) (snd shifted) [z] forward
         = Ok ([x], [y]) ->
         TransformerBase.xy t (PyNum row) (PyList [col]) (Some (PyList [z]))
           offset
         = Ok (Scalars x y))) /\
    (forall (T : Affine.t R) (row col z : R) offset options (w : world),
        In offset ["center"; "ul"; "ur"; "ll"; "lr"]%string ->
        exists x y,
          fst (xy (TAffine T) (PyNum row) (PyList [col]) None offset options w)
          = Ok (Scalars x y) /\
          fst (xy (TAffine T) (PyNum row) (PyList [col]) (Some (PyList [z]))
                 offset options w)
          = Ok (Scalars x y)) /\
    (forall (t : Transformer R) rows cols zs offset (r : shaped R),
        TransformerBase.xy t rows cols zs offset = Ok r ->
        (has_iter rows = true -> is_scalars r = false) /\
        (is_scalars r = true -> has_iter rows = false)) /\
    (forall (t : Transformer R) xs ys zs op precision (w : world)
            (r : shaped (TransformerBase.pynum R)),
        fst (TransformerBase.rowcol t xs ys zs op precision w) = Ok r ->
        is_scalars r = negb (has_iter xs || has_iter ys || has_iter_opt zs)).
Proof.
  intros R N gdal. split; [|split; [|split; [|split]]].
  - intros t rows cols zs offset p0 p1 p2 coff roff new_xs new_ys E O Et.
    rewrite (xy_method_returns t _ _ _ _ _ _ _ _ _ _ _ E O Et).
    split; [|split].
    + intros I x y ys' -> ->. rewrite I. reflexivity.
    + intros I L. apply Nat.eqb_neq in L. rewrite L. reflexivity.
    + intros I. rewrite I, andb_false_r. reflexivity.
  - intros t row col z offset coff roff x y O. cbv zeta. split; intros Et.
    + rewrite (xy_method_returns t _ _ _ _ _ _ _ _ _ _ _
                 (ensure_arr_input_scalar_one row col) O Et).
      reflexivity.
    + rewrite (xy_method_returns t _ _ _ _ _ _ _ _ _ _ _
                 (ensure_arr_input_scalar_one_zs row col z) O Et).
      reflexivity.
  - intros [a b c d e f] row col z offset options w I.
    rewrite !xy_affine. cbn [fst].
    cbn in I. destruct I as [<-|[<-|[<-|[<-|[<-|[]]]]]];
      do 2 eexists; split; reflexivity.
  - intros t rows cols zs offset r E.
    apply xy_method_inv in E
      as (oc & or & p2 & nx & ny & _ & [(I & _ & x & y & _ & _ & ->)|(I & ->)]).
    + split; [congruence|auto].
    + split; [reflexivity|discriminate].
  - intros t xs ys zs op precision w r E.
    apply rowcol_method_inv in E
      as (p0 & p1 & p2 & nc & nr & _ & _ &
          [(-> & x & y & row & col & _ & _ & _ & _ & ->)
          |(-> & rows & cols & _ & _ & ->)]); reflexivity.
Qed.

Lemma C9_xy_tests_rows_only_witness :
  let t : Transformer F64.t :=
    AffineTransformer.new
      (from_origin (of_int 0) (of_int 10) (of_int 2) (of_int 2)) in
  TransformerBase.xy t (PyNum (of_int 0)) (PyList [of_int 5])
    (Some (PyList [of_int 7])) "ul"
  = Ok (Scalars (of_int 10) (of_int 10)).
Proof.
  cbv zeta.
  refine (proj1
            (proj1 (C9_xy_tests_rows_only F64.t binary64 (no_engine F64.t))
               (AffineTransformer.new
                  (from_origin (of_int 0) (of_int 10) (of_int 2) (of_int 2)))
               (PyNum (of_int 0)) (PyList [of_int 5])
               (Some (PyList [of_int 7])) "ul"%string
               [of_int 0] [of_int 5] [of_int 7] zero zero
               [of_int 10] [of_int 10] _ _ _)
            _ (of_int 10) (of_int 10) [] _ _);
    vm_compute; reflexivity.
Defined.
